(** * The sequence tagger of OpenNMT-tf (opennmt/models/sequence_tagger.py)

    The tagger is a graph-construction-time procedure: every [tf.*] call
    adds an operation to the default graph and hands back a symbolic
    tensor.  Tensors are therefore modelled as the expressions the calls
    build, the default graph as the list of operations the tagger itself
    declares, and the Python methods as functions in a state-and-exception
    monad over the interpreter state they touch (the attributes of [self],
    the inputter object, the graph, the variable scope, the files, the
    module namespace and the output streams). *)

From Stdlib Require Import ZArith List String Lia.
From Stdlib.Strings Require Import Byte.
From stdpp Require Import base option list gmap strings.
Import ListNotations.
Local Open Scope string_scope.
Set Warnings "-register-all".

(** ** Python exceptions and the interpreter monad *)

Inductive exn : Type :=
| NameError (name : string)
| AttributeError (attr : string)
| KeyError (key : string)
| IOError (path : string)
| TypeError (what : string)
| ValueError (what : string)
| UnicodeDecodeError (position : nat)
| UnicodeEncodeError (position : nat).

Inductive result (A : Type) : Type :=
| Ok (a : A)
| Raise (e : exn).
Arguments Ok {A} a.
Arguments Raise {A} e.

(** ** Symbolic tensors: what the framework calls return in graph mode *)

Inductive dtype : Type := tf_int32 | tf_int64.

Inductive tensor : Type :=
(* tensors that reach the tagger from outside *)
| Placeholder (name : string)
| Const (value : Z)
| Op (name : string) (args : list tensor)
(* tf.layers.dense(inputs, units) *)
| Dense (inputs : tensor) (units : nat)
(* tf.get_variable(name, shape=...) in the variable scope of the call *)
| GetVariable (scope : list string) (name : string) (shape : list nat)
(* the two results of tf.contrib.crf.crf_decode *)
| CrfDecodeTags (potentials transition_params sequence_length : tensor)
| CrfDecodeScore (potentials transition_params sequence_length : tensor)
| Cast (x : tensor) (d : dtype)
(* tf.nn.softmax(logits), over the last axis *)
| Softmax (logits : tensor)
| ArgMax (input : tensor) (axis : Z)
(* lookups in the tables built from the vocabulary file *)
| IndexToString (vocabulary_file : string) (vocab_size : nat) (ids : tensor)
| StringToIndex (vocabulary_file : string) (vocab_size : nat) (keys : tensor)
(* tf.string_split([x]).values *)
| StringSplitValues (x : tensor)
(* the log-likelihood of tf.contrib.crf.crf_log_likelihood, under the
   transition matrix the primitive works with: the one it is given, or
   the variable it obtains itself when it is given None *)
| CrfLogLikelihood (inputs tag_indices sequence_lengths
                    transition_params : tensor)
| Neg (x : tensor)
| ReduceMean (x : tensor)
(* opennmt.utils.losses.masked_sequence_loss(logits, labels, length) *)
| MaskedSequenceLoss (logits labels sequence_length : tensor).

(** What a call of the tagger leaves in the default graph. *)
Inductive node : Type :=
| OpNode (output : tensor)
| LookupTable (reverse : bool) (vocabulary_file : string) (vocab_size : nat)
| VariableNode (scope : list string) (name : string) (shape : list nat)
(* the parameters of a dense layer declared in [scope]: a kernel of shape
   [depth of inputs, units] and a bias of shape [units] *)
| KernelNode (scope : list string) (inputs : tensor) (units : nat)
| BiasNode (scope : list string) (units : nat)
| DatasetNode (file : string).

(** The size of the last dimension in the static shape of a tensor, as
    far as the tagger's own operations determine it; a tensor that comes
    from outside has no static shape here. *)
Fixpoint last_dimension (t : tensor) : option nat :=
  match t with
  | Dense _ units => Some units
  | Cast x _ => last_dimension x
  | Softmax x => last_dimension x
  | Neg x => last_dimension x
  | _ => None
  end.

Inductive dataset : Type :=
| TextLineDataset (file : string)
| InputterDataset (file : string).

(** Objects a module-level name can be bound to. *)
Inductive pyobj : Type :=
| PyModule (name : string)
| PyClass (name : string)
| PyFunction (name : string)
| PyFeature (name : string)
| PyTensor (t : tensor).

(** tf.estimator.ModeKeys *)
Module ModeKeys.
Definition TRAIN : string := "train".
Definition EVAL : string := "eval".
Definition PREDICT : string := "infer".
End ModeKeys.

Record RunConfig : Type := { model_dir : string }.

(** ** Collaborators

    The inputter and the encoder are interfaces of the framework.  Their
    methods build tensors in the variable scope they are called in; the
    inputter also carries state of its own, which [initialize] updates. *)

Class Inputter : Type := {
  inputter_state : Type;
  inputter_initialize : gmap string string -> inputter_state -> inputter_state;
  inputter_get_length : inputter_state -> tensor -> tensor;
  inputter_transform_data :
    inputter_state -> list string -> tensor -> string -> string -> tensor;
  inputter_make_dataset : inputter_state -> string -> dataset;
  inputter_process : inputter_state -> tensor -> tensor;
  inputter_padded_shapes : inputter_state -> list (option nat);
  inputter_get_serving_input_receiver : inputter_state -> tensor * tensor
}.

Class Encoder : Type := {
  encoder_encode :
    list string -> tensor -> tensor -> string -> tensor * tensor * tensor
}.

(** ** Bytes, text and UTF-8 *)

Definition bytes : Type := list byte.
(** A Python 3 [str]: a sequence of Unicode code points. *)
Definition text : Type := list N.

Definition continuation (b : byte) : option N :=
  let n := Byte.to_N b in
  if ((128 <=? n) && (n <=? 191))%N then Some (n - 128)%N else None.

Definition cons_code_point (cp : N) (r : nat + text) : nat + text :=
  match r with
  | inl position => inl position
  | inr t => inr (cp :: t)
  end.

(** [bs.decode("utf-8")], the strict decoder of Python: no overlong forms,
    no surrogates, nothing above U+10FFFF.  [inl position] is the offset of
    the first byte that does not decode (the UnicodeDecodeError), [pos] the
    offset of [bs] in the whole input. *)
Fixpoint utf8_decode_from (pos : nat) (bs : bytes) : nat + text :=
  match bs with
  | [] => inr []
  | b0 :: rest =>
    let n0 := Byte.to_N b0 in
    if (n0 <=? 127)%N then
      cons_code_point n0 (utf8_decode_from (1 + pos) rest)
    else if ((194 <=? n0) && (n0 <=? 223))%N then
      match rest with
      | b1 :: rest' =>
        match continuation b1 with
        | Some c1 =>
          cons_code_point ((n0 - 192) * 64 + c1)%N
                          (utf8_decode_from (2 + pos) rest')
        | None => inl pos
        end
      | _ => inl pos
      end
    else if ((224 <=? n0) && (n0 <=? 239))%N then
      match rest with
      | b1 :: b2 :: rest' =>
        match continuation b1, continuation b2 with
        | Some c1, Some c2 =>
          let cp := ((n0 - 224) * 4096 + c1 * 64 + c2)%N in
          if ((2048 <=? cp) && negb ((55296 <=? cp) && (cp <=? 57343)))%N
          then cons_code_point cp (utf8_decode_from (3 + pos) rest')
          else inl pos
        | _, _ => inl pos
        end
      | _ => inl pos
      end
    else if ((240 <=? n0) && (n0 <=? 244))%N then
      match rest with
      | b1 :: b2 :: b3 :: rest' =>
        match continuation b1, continuation b2, continuation b3 with
        | Some c1, Some c2, Some c3 =>
          let cp := ((n0 - 240) * 262144 + c1 * 4096 + c2 * 64 + c3)%N in
          if ((65536 <=? cp) && (cp <=? 1114111))%N
          then cons_code_point cp (utf8_decode_from (4 + pos) rest')
          else inl pos
        | _, _, _ => inl pos
        end
      | _ => inl pos
      end
    else inl pos
  end.

Definition utf8_decode (bs : bytes) : nat + text := utf8_decode_from 0 bs.

(** A Unicode scalar value: a code point up to U+10FFFF that is not a
    surrogate. *)
Definition unicode_scalar (cp : N) : bool :=
  ((cp <=? 1114111) && negb ((55296 <=? cp) && (cp <=? 57343)))%N.

(** The encoding of a text stream, with strict error handling. *)
Inductive encoding : Type := ascii_encoding | latin_1 | utf_8.

Definition encodable (e : encoding) (cp : N) : bool :=
  match e with
  | ascii_encoding => (cp <=? 127)%N
  | latin_1 => (cp <=? 255)%N
  | utf_8 => unicode_scalar cp
  end.

(** The offset of the first code point that [e] cannot encode. *)
Fixpoint first_unencodable (e : encoding) (pos : nat) (t : text)
    : option nat :=
  match t with
  | [] => None
  | cp :: rest =>
    if encodable e cp then first_unencodable e (S pos) rest else Some pos
  end.

(** [sep.join(parts)] on bytes. *)
Fixpoint bytes_join (sep : bytes) (parts : list bytes) : bytes :=
  match parts with
  | [] => []
  | [p] => p
  | p :: ps => (p ++ sep ++ bytes_join sep ps)%list
  end.

(** [seq[:stop]] on a Python sequence. *)
Definition slice_to {A : Type} (stop : Z) (l : list A) : list A :=
  if (0 <=? stop)%Z then take (Z.to_nat stop) l
  else take (length l - Z.to_nat (- stop)) l.

(** ** The interpreter state *)

Section Interpreter.
Context {the_inputter : Inputter}.

(** The attributes of a [SequenceTagger] instance.  [inputter] and
    [encoder] hold references to the collaborating objects; the last two
    attributes do not exist until [_initialize] assigns them. *)
Record SequenceTagger : Type := {
  name : string;
  encoder : positive;
  inputter : positive;
  labels_vocabulary_file_key : string;
  crf_decoding : bool;
  labels_vocabulary_file : option string;
  num_labels : option nat
}.

Record world : Type := {
  self : SequenceTagger;
  (* the object [self.inputter] refers to *)
  inputter_object : inputter_state;
  (* the operations the tagger has declared in the default graph *)
  graph : list node;
  (* the enclosing tf.variable_scope blocks, outermost first *)
  variable_scope : list string;
  (* text files, as their lines *)
  files : gmap string (list bytes);
  (* the namespace of the module at run time *)
  globals : gmap string pyobj;
  (* what has been written to each text stream *)
  streams : gmap positive text;
  (* the encoding each text stream was opened with *)
  stream_encoding : positive -> encoding
}.

Definition M (A : Type) : Type := world -> result A * world.

Definition ret {A : Type} (a : A) : M A := fun w => (Ok a, w).

Definition raise {A : Type} (e : exn) : M A := fun w => (Raise e, w).

Definition bind {A B : Type} (m : M A) (k : A -> M B) : M B :=
  fun w =>
    match m w with
    | (Ok a, w') => k a w'
    | (Raise e, w') => (Raise e, w')
    end.

Definition gets {A : Type} (f : world -> A) : M A := fun w => (Ok (f w), w).

Definition modify (f : world -> world) : M unit := fun w => (Ok tt, f w).

End Interpreter.

Declare Scope py_scope.
Delimit Scope py_scope with py.
Notation "'let*' x ':=' c1 'in' c2" := (bind c1 (fun x => c2))
  (at level 10, x pattern, c1 at level 100, c2 at level 200) : py_scope.
Local Open Scope py_scope.

(** ** Framework calls, and the language constructs the methods use *)

Section Runtime.
Context {the_inputter : Inputter}.

Definition with_self (t : SequenceTagger) (w : world) : world :=
  {| self := t; inputter_object := inputter_object w; graph := graph w;
     variable_scope := variable_scope w; files := files w;
     globals := globals w; streams := streams w;
     stream_encoding := stream_encoding w |}.

Definition with_inputter_object (o : inputter_state) (w : world) : world :=
  {| self := self w; inputter_object := o; graph := graph w;
     variable_scope := variable_scope w; files := files w;
     globals := globals w; streams := streams w;
     stream_encoding := stream_encoding w |}.

Definition with_graph (g : list node) (w : world) : world :=
  {| self := self w; inputter_object := inputter_object w; graph := g;
     variable_scope := variable_scope w; files := files w;
     globals := globals w; streams := streams w;
     stream_encoding := stream_encoding w |}.

Definition with_variable_scope (sc : list string) (w : world) : world :=
  {| self := self w; inputter_object := inputter_object w; graph := graph w;
     variable_scope := sc; files := files w;
     globals := globals w; streams := streams w;
     stream_encoding := stream_encoding w |}.

Definition with_streams (st : gmap positive text) (w : world) : world :=
  {| self := self w; inputter_object := inputter_object w; graph := graph w;
     variable_scope := variable_scope w; files := files w;
     globals := globals w; streams := st;
     stream_encoding := stream_encoding w |}.

(** [self.attr] for an attribute that exists from construction on. *)
Definition getattr {A : Type} (field : SequenceTagger -> A) : M A :=
  gets (fun w => field (self w)).

(** [self.attr] for an attribute that [_initialize] creates. *)
Definition getattr_late {A : Type} (attr : string)
    (field : SequenceTagger -> option A) : M A :=
  fun w =>
    match field (self w) with
    | Some a => (Ok a, w)
    | None => (Raise (AttributeError attr), w)
    end.

(** [self.labels_vocabulary_file = v] *)
Definition set_labels_vocabulary_file (v : string) : M unit :=
  modify (fun w =>
    with_self {| name := name (self w); encoder := encoder (self w);
                 inputter := inputter (self w);
                 labels_vocabulary_file_key :=
                   labels_vocabulary_file_key (self w);
                 crf_decoding := crf_decoding (self w);
                 labels_vocabulary_file := Some v;
                 num_labels := num_labels (self w) |} w).

(** [self.num_labels = v] *)
Definition set_num_labels (v : nat) : M unit :=
  modify (fun w =>
    with_self {| name := name (self w); encoder := encoder (self w);
                 inputter := inputter (self w);
                 labels_vocabulary_file_key :=
                   labels_vocabulary_file_key (self w);
                 crf_decoding := crf_decoding (self w);
                 labels_vocabulary_file := labels_vocabulary_file (self w);
                 num_labels := Some v |} w).

(** [d[key]] on a dict *)
Definition getitem {V : Type} (d : gmap string V) (key : string) : M V :=
  match d !! key with
  | Some v => ret v
  | None => raise (KeyError key)
  end.

(** A name that no statement of the function or of the module binds is
    looked up in the module namespace when the expression is evaluated
    (no builtin is called [logits]). *)
Definition load_global (id : string) : M pyobj :=
  fun w =>
    match globals w !! id with
    | Some v => (Ok v, w)
    | None => (Raise (NameError id), w)
    end.

Definition add_node (n : node) : M unit :=
  modify (fun w => with_graph (graph w ++ [n]) w).

(** A call that declares one operation and returns its output. *)
Definition op (t : tensor) : M tensor :=
  let* _ := add_node (OpNode t) in ret t.

(** [with tf.variable_scope(scope_name): body]; the scope is left again
    when the body raises. *)
Definition tf_variable_scope {A : Type} (scope_name : string) (body : M A)
    : M A :=
  fun w =>
    let outer := variable_scope w in
    match body (with_variable_scope (outer ++ [scope_name]) w) with
    | (r, w') => (r, with_variable_scope outer w')
    end.

(** [tf.layers.dense(inputs, units)]: the layer creates its kernel and
    its bias in the scope of the call, then declares the projection. *)
Definition tf_layers_dense (inputs : tensor) (units : nat) : M tensor :=
  let* sc := gets variable_scope in
  let* _ := add_node (KernelNode sc inputs units) in
  let* _ := add_node (BiasNode sc units) in
  op (Dense inputs units).

(** [tf.get_variable(var_name, shape=shape)], for a name that the scope
    of the call can still take. *)
Definition tf_get_variable (var_name : string) (shape : list nat) : M tensor :=
  let* sc := gets variable_scope in
  let* _ := add_node (VariableNode sc var_name shape) in
  ret (GetVariable sc var_name shape).

Definition tf_contrib_crf_crf_decode
    (potentials transition_params sequence_length : tensor)
    : M (tensor * tensor) :=
  let* tags := op (CrfDecodeTags potentials transition_params sequence_length) in
  ret (tags, CrfDecodeScore potentials transition_params sequence_length).

(** [tf.contrib.crf.crf_log_likelihood(inputs, tag_indices,
    sequence_lengths, transition_params=None)]: when it is given no
    transition matrix the primitive gets the variable transitions of shape
    [num_tags, num_tags] itself, where num_tags is the last dimension of
    the inputs (a shape that is not fully defined is refused); it returns
    the log-likelihood and the transition matrix it worked with. *)
Definition tf_contrib_crf_crf_log_likelihood
    (inputs tag_indices sequence_lengths : tensor)
    (transition_params : option tensor) : M (tensor * tensor) :=
  let* transitions :=
    match transition_params with
    | Some given => ret given
    | None =>
      match last_dimension inputs with
      | Some num_tags => tf_get_variable "transitions" [num_tags; num_tags]
      | None => raise (ValueError "transitions")
      end
    end in
  let* ll := op (CrfLogLikelihood inputs tag_indices sequence_lengths
                                  transitions) in
  ret (ll, transitions).

Definition tf_cast (x : tensor) (d : dtype) : M tensor := op (Cast x d).
Definition tf_nn_softmax (logits : tensor) : M tensor := op (Softmax logits).
Definition tf_argmax (input : tensor) (axis : Z) : M tensor :=
  op (ArgMax input axis).
Definition tf_neg (x : tensor) : M tensor := op (Neg x).
Definition tf_reduce_mean (x : tensor) : M tensor := op (ReduceMean x).
Definition tf_string_split_values (x : tensor) : M tensor :=
  op (StringSplitValues x).

(** A lookup table of tf.contrib.lookup, built from a vocabulary file. *)
Record table : Type := {
  table_reverse : bool;
  table_file : string;
  table_vocab_size : nat
}.

Definition tf_contrib_lookup_index_table_from_file
    (vocabulary_file : string) (vocab_size : nat) : M table :=
  let* _ := add_node (LookupTable false vocabulary_file vocab_size) in
  ret {| table_reverse := false; table_file := vocabulary_file;
         table_vocab_size := vocab_size |}.

Definition tf_contrib_lookup_index_to_string_table_from_file
    (vocabulary_file : string) (vocab_size : nat) : M table :=
  let* _ := add_node (LookupTable true vocabulary_file vocab_size) in
  ret {| table_reverse := true; table_file := vocabulary_file;
         table_vocab_size := vocab_size |}.

Definition table_lookup (t : table) (x : tensor) : M tensor :=
  op (if table_reverse t
      then IndexToString (table_file t) (table_vocab_size t) x
      else StringToIndex (table_file t) (table_vocab_size t) x).

Definition tf_contrib_data_TextLineDataset (file : string) : M dataset :=
  let* _ := add_node (DatasetNode file) in ret (TextLineDataset file).

(** Modelled from the spec: [opennmt.utils.misc.count_lines], the
    line-count utility, whose source is not part of the files at hand.  It
    returns the number of lines of the file and raises when the file is
    absent. *)
Definition count_lines (filename : string) : M nat :=
  fun w =>
    match files w !! filename with
    | Some lines => (Ok (length lines), w)
    | None => (Raise (IOError filename), w)
    end.

(** Modelled from the spec: [opennmt.utils.losses.masked_sequence_loss],
    the length-masked token-level loss between logits and labels, whose
    source is not part of the files at hand; it is kept as one opaque
    operation of the graph. *)
Definition masked_sequence_loss (logits : pyobj) (labels length : tensor)
    : M tensor :=
  match logits with
  | PyTensor t => op (MaskedSequenceLoss t labels length)
  | _ => raise (TypeError "logits")
  end.

Definition sys_stdout : positive := 1%positive.

(** [print(t, file=file)]: the text and a newline go to the stream, to
    [sys.stdout] when [file] is None.  The stream encodes what it is
    given, and raises UnicodeEncodeError, writing nothing, when its
    encoding cannot take the text. *)
Definition print (t : text) (file : option positive) : M unit :=
  fun w =>
    let s := default sys_stdout file in
    match first_unencodable (stream_encoding w s) 0 t with
    | Some position => (Raise (UnicodeEncodeError position), w)
    | None =>
      (Ok tt,
       with_streams
         (<[s := (default [] (streams w !! s) ++ t ++ [10%N])%list]>
            (streams w)) w)
    end.

End Runtime.

(** ** The methods of [SequenceTagger] *)

(** A prediction as [print_prediction] receives it: the evaluated
    arrays of one example. *)
Inductive npvalue : Type :=
| NpInt (n : Z)
| NpBytesArray (items : list bytes).

(** The operations a caller can invoke on a constructed tagger. *)
Inductive operation : Type :=
| Initialize (metadata : gmap string string)
| GetServingInputReceiver
| GetFeaturesLength (features : tensor)
| GetLabelsLength (labels : tensor)
| GetFeaturesBuilder (features_file : string)
| GetLabelsBuilder (labels_file : string)
| Build (features labels : tensor) (params : gmap string string)
        (mode : string) (config : RunConfig)
| ComputeLoss (features labels outputs : tensor)
| PrintPrediction (prediction : gmap string npvalue)
                  (params : option (gmap string string))
                  (stream : option positive).

Section Tagger.
Context {the_inputter : Inputter} {the_encoder : Encoder}.

(** [SequenceTagger(inputter, encoder, labels_vocabulary_file_key,
    crf_decoding, name)]: the base class keeps the name, the constructor
    the four configuration attributes. *)
Definition __init__ (inputter_ref encoder_ref : positive)
    (labels_vocabulary_file_key_ : string) (crf_decoding_ : bool)
    (name_ : string) : SequenceTagger :=
  {| name := name_;
     encoder := encoder_ref;
     inputter := inputter_ref;
     labels_vocabulary_file_key := labels_vocabulary_file_key_;
     crf_decoding := crf_decoding_;
     labels_vocabulary_file := None;
     num_labels := None |}.

Definition _initialize (metadata : gmap string string) : M unit :=
  let* _ := modify (fun w =>
    with_inputter_object (inputter_initialize metadata (inputter_object w)) w) in
  let* key := getattr labels_vocabulary_file_key in
  let* file := getitem metadata key in
  let* _ := set_labels_vocabulary_file file in
  let* file' := getattr_late "labels_vocabulary_file" labels_vocabulary_file in
  let* n := count_lines file' in
  set_num_labels n.

Definition _get_serving_input_receiver : M (tensor * tensor) :=
  gets (fun w => inputter_get_serving_input_receiver (inputter_object w)).

Definition _get_features_length (features : tensor) : M tensor :=
  gets (fun w => inputter_get_length (inputter_object w) features).

Definition _get_labels_length (labels : tensor) : M (option tensor) :=
  ret None.

Definition _get_features_builder (features_file : string)
    : M (dataset * (tensor -> M tensor) * (unit -> M (list (option nat)))) :=
  let* dataset := gets (fun w =>
    inputter_make_dataset (inputter_object w) features_file) in
  let process_fn := fun x =>
    gets (fun w => inputter_process (inputter_object w) x) in
  let padded_shapes_fn := fun _ : unit =>
    gets (fun w => inputter_padded_shapes (inputter_object w)) in
  ret (dataset, process_fn, padded_shapes_fn).

Definition _get_labels_builder (labels_file : string)
    : M (dataset * (tensor -> M tensor) * (unit -> M (list (option nat)))) :=
  let* file := getattr_late "labels_vocabulary_file" labels_vocabulary_file in
  let* n := getattr_late "num_labels" num_labels in
  let* labels_vocabulary := tf_contrib_lookup_index_table_from_file file n in
  let* dataset := tf_contrib_data_TextLineDataset labels_file in
  let process_fn := fun x =>
    let* values := tf_string_split_values x in
    table_lookup labels_vocabulary values in
  let padded_shapes_fn := fun _ : unit => ret [None] in
  ret (dataset, process_fn, padded_shapes_fn).

Definition _build (features labels : tensor) (params : gmap string string)
    (mode : string) (config : RunConfig)
    : M (tensor * option (gmap string tensor)) :=
  let* length := _get_features_length features in
  let* (encoder_outputs, encoder_sequence_length) :=
    tf_variable_scope "encoder" (
      let* inputs := gets (fun w =>
        inputter_transform_data (inputter_object w) (variable_scope w)
                                features mode (model_dir config)) in
      let* enc := gets (fun w =>
        encoder_encode (variable_scope w) inputs length mode) in
      let '(encoder_outputs, _, encoder_sequence_length) := enc in
      ret (encoder_outputs, encoder_sequence_length)) in
  let* logits :=
    tf_variable_scope "generator" (
      let* n := getattr_late "num_labels" num_labels in
      tf_layers_dense encoder_outputs n) in
  if negb (String.eqb mode ModeKeys.TRAIN) then
    let* crf := getattr crf_decoding in
    let* tags_id :=
      if crf then
        let* n1 := getattr_late "num_labels" num_labels in
        let* n2 := getattr_late "num_labels" num_labels in
        let* transition_params := tf_get_variable "transitions" [n1; n2] in
        let* (tags_id, _) :=
          tf_contrib_crf_crf_decode logits transition_params
                                    encoder_sequence_length in
        tf_cast tags_id tf_int64
      else
        let* tags_prob := tf_nn_softmax logits in
        tf_argmax tags_prob 2 in
    let* file := getattr_late "labels_vocabulary_file" labels_vocabulary_file in
    let* n := getattr_late "num_labels" num_labels in
    let* labels_vocab_rev :=
      tf_contrib_lookup_index_to_string_table_from_file file n in
    let* looked_up := table_lookup labels_vocab_rev tags_id in
    let predictions : gmap string tensor :=
      <["labels" := looked_up]>
        (<["length" := encoder_sequence_length]> ∅) in
    ret (logits, Some predictions)
  else
    ret (logits, None).

Definition _compute_loss (features labels outputs : tensor) : M tensor :=
  let* length := _get_features_length features in
  let* crf := getattr crf_decoding in
  if crf then
    let* labels_int := tf_cast labels tf_int32 in
    let* (log_likelihood, _) :=
      tf_contrib_crf_crf_log_likelihood outputs labels_int length None in
    let* negated := tf_neg log_likelihood in
    tf_reduce_mean negated
  else
    let* logits := load_global "logits" in
    masked_sequence_loss logits labels length.

Definition print_prediction (prediction : gmap string npvalue)
    (params : option (gmap string string)) (stream : option positive)
    : M unit :=
  let* all_labels := getitem prediction "labels" in
  let* stop := getitem prediction "length" in
  match all_labels, stop with
  | NpBytesArray items, NpInt n =>
    let labels := slice_to n items in
    let sent := bytes_join [" "%byte] labels in
    match utf8_decode sent with
    | inr decoded => print decoded stream
    | inl position => raise (UnicodeDecodeError position)
    end
  | _, _ => raise (TypeError "prediction")
  end.

(** The state an operation leaves behind, whether it returns or raises. *)
Definition run (o : operation) (w : world) : world :=
  match o with
  | Initialize metadata => snd (_initialize metadata w)
  | GetServingInputReceiver => snd (_get_serving_input_receiver w)
  | GetFeaturesLength features => snd (_get_features_length features w)
  | GetLabelsLength labels => snd (_get_labels_length labels w)
  | GetFeaturesBuilder features_file =>
    snd (_get_features_builder features_file w)
  | GetLabelsBuilder labels_file => snd (_get_labels_builder labels_file w)
  | Build features labels params mode config =>
    snd (_build features labels params mode config w)
  | ComputeLoss features labels outputs =>
    snd (_compute_loss features labels outputs w)
  | PrintPrediction prediction params stream =>
    snd (print_prediction prediction params stream w)
  end.

Definition run_all (os : list operation) (w : world) : world :=
  fold_left (fun w o => run o w) os w.

End Tagger.

(** ** What [_build] and [run] compute, named for the statements below *)

Section Observations.
Context {the_inputter : Inputter} {the_encoder : Encoder}.

(** The triple [self.encoder.encode] returns inside [_build]. *)
Definition encoded (w : world) (features : tensor) (mode : string)
    (config : RunConfig) : tensor * tensor * tensor :=
  let sc := (variable_scope w ++ ["encoder"])%list in
  encoder_encode sc
    (inputter_transform_data (inputter_object w) sc features mode
                             (model_dir config))
    (inputter_get_length (inputter_object w) features)
    mode.

Definition encoder_outputs_of (w : world) (features : tensor) (mode : string)
    (config : RunConfig) : tensor :=
  fst (fst (encoded w features mode config)).

Definition encoder_sequence_length_of (w : world) (features : tensor)
    (mode : string) (config : RunConfig) : tensor :=
  snd (encoded w features mode config).

(** The configuration a tagger is constructed with. *)
Definition configuration (t : SequenceTagger)
    : positive * positive * string * bool :=
  (inputter t, encoder t, labels_vocabulary_file_key t, crf_decoding t).

(** A monadic step that leaves the configuration of [self] alone, whether
    it returns or raises. *)
Definition keeps_configuration {A : Type} (m : M A) : Prop :=
  forall w : world,
    configuration (self (snd (m w))) = configuration (self w).

(** The nodes an operation adds to the graph. *)
Definition added (o : operation) (w : world) : list node :=
  drop (length (graph w)) (graph (run o w)).

Definition is_initialize (o : operation) : bool :=
  match o with
  | Initialize _ => true
  | _ => false
  end.

(** Decoding: the structured decoder, or the soft-max and arg-max pair. *)
Definition is_decoding (nd : node) : bool :=
  match nd with
  | OpNode (CrfDecodeTags _ _ _) | OpNode (CrfDecodeScore _ _ _)
  | OpNode (Softmax _) | OpNode (ArgMax _ _) => true
  | _ => false
  end.

Definition is_reverse_lookup (nd : node) : bool :=
  match nd with
  | LookupTable true _ _ | OpNode (IndexToString _ _ _) => true
  | _ => false
  end.

(** The creation of a CRF transition matrix: a variable called
    transitions. *)
Definition is_transitions_creation (nd : node) : bool :=
  match nd with
  | VariableNode _ var_name _ => String.eqb var_name "transitions"
  | _ => false
  end.



End Observations.

(** ** A concrete setting: a word inputter and a pyramidal encoder *)

(** The module namespace once the file has been imported: the names its
    import statements and its class statement bind. *)
Definition module_globals : gmap string pyobj :=
  list_to_map
    [("print_function", PyFeature "print_function");
     ("tf", PyModule "tensorflow");
     ("Model", PyClass "opennmt.models.model.Model");
     ("count_lines", PyFunction "opennmt.utils.misc.count_lines");
     ("masked_sequence_loss",
      PyFunction "opennmt.utils.losses.masked_sequence_loss");
     ("SequenceTagger", PyClass "SequenceTagger")].

(** An inputter that remembers the metadata it was initialized with and
    reads the length off the features. *)
Definition word_inputter : Inputter :=
  {| inputter_state := list (gmap string string);
     inputter_initialize := fun metadata st => (st ++ [metadata])%list;
     inputter_get_length := fun _ features => Op "length" [features];
     inputter_transform_data := fun _ sc features _ _ =>
       Op "embedding_lookup" [GetVariable sc "w_embs" [10; 4]; features];
     inputter_make_dataset := fun _ file => InputterDataset file;
     inputter_process := fun _ x => Op "process" [x];
     inputter_padded_shapes := fun _ => [None];
     inputter_get_serving_input_receiver := fun _ =>
       (Placeholder "features", Placeholder "receiver") |}.

(** An encoder that halves the time dimension, as a pyramidal recurrent
    encoder does. *)
Definition pyramidal_encoder : Encoder :=
  {| encoder_encode := fun sc inputs sequence_length _ =>
       (Op "pyramidal_rnn" [inputs; sequence_length],
        Op "final_state" [inputs; sequence_length],
        Op "floordiv" [sequence_length; Const 2]) |}.

(** The value of an integer tensor built from placeholders, constants and
    floor division, under a feed of the placeholders. *)
Fixpoint int_value (feed : tensor -> option Z) (t : tensor) : option Z :=
  match t with
  | Const z => Some z
  | Op "floordiv" [a; b] =>
    match int_value feed a, int_value feed b with
    | Some x, Some y => Some (x / y)%Z
    | _, _ => None
    end
  | _ => feed t
  end.

Definition label_lines : list bytes :=
  [list_byte_of_string "B-PER"; list_byte_of_string "I-PER";
   list_byte_of_string "O"].

Definition sample_tagger (crf : bool) : SequenceTagger :=
  __init__ 2%positive 3%positive "labels_vocabulary" crf "seqtagger".

Definition sample_metadata : gmap string string :=
  <["labels_vocabulary" := "labels.txt"]> ∅.

(** A freshly constructed tagger in a process that has imported the
    module and holds the vocabulary file. *)
Definition fresh_world (crf : bool) : world (the_inputter := word_inputter) :=
  @Build_world word_inputter
    (sample_tagger crf)                        (* self *)
    []                                         (* the inputter object *)
    []                                         (* graph *)
    []                                         (* variable scope *)
    (<["labels.txt" := label_lines]> ∅)        (* files *)
    module_globals                             (* globals *)
    ∅                                          (* streams *)
    (fun _ => utf_8)                           (* their encodings *).

(** The same tagger after [_initialize]. *)
Definition ready_world (crf : bool) : world (the_inputter := word_inputter) :=
  run (the_inputter := word_inputter) (the_encoder := pyramidal_encoder)
      (Initialize sample_metadata) (fresh_world crf).

(** Inputs for the concrete setting. *)
Definition sample_features : tensor := Placeholder "features".
Definition sample_labels : tensor := Placeholder "labels".
Definition sample_outputs : tensor := Placeholder "outputs".
(** Logits over three labels, as [_build] returns them. *)
Definition sample_logits : tensor := Dense (Placeholder "encoded") 3.
Definition sample_config : RunConfig := {| model_dir := "run" |}.

(** A feed in which the features hold sequences of length 4. *)
Definition sample_feed (t : tensor) : option Z :=
  match t with
  | Op "length" [Placeholder "features"] => Some 4%Z
  | _ => None
  end.

(** Three decoded labels, of which the first two count. *)
Definition sample_prediction : gmap string npvalue :=
  <["labels" := NpBytesArray label_lines]> (<["length" := NpInt 2]> ∅).




(** ** Classes of operations and of code points, for the further
    properties *)

Definition is_print_prediction (o : operation) : bool :=
  match o with
  | PrintPrediction _ _ _ => true
  | _ => false
  end.

Definition is_ascii (b : byte) : bool := (Byte.to_N b <=? 127)%N.

(** The stop index that Python's slicing uses for [seq[:stop]] on a
    sequence of [len] items: a negative index counts from the end, and the
    result is clamped to the range from 0 to [len]. *)
Definition normalized_stop (stop : Z) (len : nat) : Z :=
  if (stop <? 0)%Z then Z.max 0 (Z.of_nat len + stop)
  else Z.min stop (Z.of_nat len).

(** * Properties *)

(** Opens a world and its tagger, so that attribute reads compute. *)
Ltac open_world w :=
  let nm := fresh "nm" in let enc := fresh "enc" in
  let inp := fresh "inp" in let key := fresh "key" in
  let crf := fresh "crf" in let file := fresh "file" in
  let nl := fresh "nl" in
  destruct w as [[nm enc inp key crf file nl] ? ? ? ? ? ? ?];
  cbn [self name encoder inputter labels_vocabulary_file_key crf_decoding
       labels_vocabulary_file num_labels inputter_object graph
       variable_scope files globals streams stream_encoding] in *.

Ltac run_method :=
  cbv [_initialize _get_serving_input_receiver _get_features_length
       _get_labels_length _get_features_builder _get_labels_builder
       _build _compute_loss print_prediction
       bind ret raise gets modify getattr getattr_late getitem load_global
       add_node op tf_variable_scope tf_layers_dense tf_get_variable
       tf_contrib_crf_crf_decode tf_contrib_crf_crf_log_likelihood tf_cast
       tf_nn_softmax tf_argmax tf_neg tf_reduce_mean tf_string_split_values
       tf_contrib_lookup_index_table_from_file
       tf_contrib_lookup_index_to_string_table_from_file table_lookup
       tf_contrib_data_TextLineDataset count_lines masked_sequence_loss print
       set_labels_vocabulary_file set_num_labels
       with_self with_inputter_object with_graph with_variable_scope
       with_streams
       self name encoder inputter labels_vocabulary_file_key crf_decoding
       labels_vocabulary_file num_labels inputter_object graph
       variable_scope files globals streams stream_encoding
       table_reverse table_file table_vocab_size].

Section ComputeLoss.
Context {the_inputter : Inputter} {the_encoder : Encoder}.

(** C1. Without CRF decoding, [_compute_loss] reads the name [logits],
    which the function does not bind, and not its parameter [outputs]:
    the call does not depend on [outputs], and when the module namespace
    has no binding for [logits] it raises NameError instead of returning
    a loss, leaving the state as it was. *)
Theorem compute_loss_reads_unbound_logits :
  forall (w : world) (features labels outputs : tensor),
    crf_decoding (self w) = false ->
    (forall outputs' : tensor,
       _compute_loss features labels outputs w =
       _compute_loss features labels outputs' w) /\
    (globals w !! "logits" = None ->
     _compute_loss features labels outputs w =
     (Raise (NameError "logits"), w)) /\
    (forall t : tensor,
       globals w !! "logits" = Some (PyTensor t) ->
       fst (_compute_loss features labels outputs w) =
       Ok (MaskedSequenceLoss t labels
             (inputter_get_length (inputter_object w) features))).
Proof.
  intros w features labels outputs Hcrf.
  open_world w. subst.
  split; [| split].
  - intros outputs'. reflexivity.
  - intros Hunbound. run_method. rewrite Hunbound. reflexivity.
  - intros t Hbound. run_method. rewrite Hbound. reflexivity.
Qed.

(** The CRF branch of [_compute_loss], as equations. *)
Lemma compute_loss_with_crf :
  forall (w : world) (features labels outputs : tensor) (num_tags : nat),
    crf_decoding (self w) = true ->
    last_dimension outputs = Some num_tags ->
    let length := inputter_get_length (inputter_object w) features in
    let labels_int := Cast labels tf_int32 in
    let transitions :=
      GetVariable (variable_scope w) "transitions" [num_tags; num_tags] in
    let log_likelihood :=
      CrfLogLikelihood outputs labels_int length transitions in
    _compute_loss features labels outputs w =
    (Ok (ReduceMean (Neg log_likelihood)),
     with_graph
       (graph w ++ [OpNode labels_int;
                    VariableNode (variable_scope w) "transitions"
                                 [num_tags; num_tags];
                    OpNode log_likelihood;
                    OpNode (Neg log_likelihood);
                    OpNode (ReduceMean (Neg log_likelihood))]) w).
Proof.
  intros w features labels outputs num_tags Hcrf Htags.
  open_world w. subst. run_method. rewrite Htags. run_method.
  repeat rewrite <- app_assoc. reflexivity.
Qed.

Lemma compute_loss_with_crf_without_tags :
  forall (w : world) (features labels outputs : tensor),
    crf_decoding (self w) = true ->
    last_dimension outputs = None ->
    _compute_loss features labels outputs w =
    (Raise (ValueError "transitions"),
     with_graph (graph w ++ [OpNode (Cast labels tf_int32)]) w).
Proof.
  intros w features labels outputs Hcrf Htags.
  open_world w. subst. run_method. rewrite Htags. reflexivity.
Qed.


End ComputeLoss.

Section Build.
Context {the_inputter : Inputter} {the_encoder : Encoder}.

Lemma mode_is_not_train (mode : string) :
  mode <> ModeKeys.TRAIN -> String.eqb mode ModeKeys.TRAIN = false.
Proof. intros Hmode. apply String.eqb_neq. exact Hmode. Qed.

(** The three ways through [_build], as equations. *)

Lemma build_in_training :
  forall (w : world) features labels params config n,
    num_labels (self w) = Some n ->
    let logits :=
      Dense (encoder_outputs_of w features ModeKeys.TRAIN config) n in
    let generator := (variable_scope w ++ ["generator"])%list in
    _build features labels params ModeKeys.TRAIN config w =
    (Ok (logits, None),
     with_graph
       (graph w ++ [KernelNode generator
                      (encoder_outputs_of w features ModeKeys.TRAIN config) n;
                    BiasNode generator n; OpNode logits]) w).
Proof.
  intros w features labels params config n Hn.
  open_world w. subst.
  unfold encoder_outputs_of, encoded. run_method.
  destruct (encoder_encode _ _ _ _) as [[eo st] esl]. cbn.
  repeat rewrite <- app_assoc. reflexivity.
Qed.

Lemma build_with_softmax :
  forall (w : world) features labels params mode config n file,
    num_labels (self w) = Some n ->
    labels_vocabulary_file (self w) = Some file ->
    crf_decoding (self w) = false ->
    mode <> ModeKeys.TRAIN ->
    let logits := Dense (encoder_outputs_of w features mode config) n in
    let tags_id := ArgMax (Softmax logits) 2 in
    let looked_up := IndexToString file n tags_id in
    _build features labels params mode config w =
    (Ok (logits,
         Some (<["labels" := looked_up]>
                 (<["length" :=
                      encoder_sequence_length_of w features mode config]> ∅))),
     with_graph
       (graph w ++ [KernelNode (variable_scope w ++ ["generator"])
                      (encoder_outputs_of w features mode config) n;
                    BiasNode (variable_scope w ++ ["generator"]) n;
                    OpNode logits; OpNode (Softmax logits);
                    OpNode tags_id; LookupTable true file n;
                    OpNode looked_up]) w).
Proof.
  intros w features labels params mode config n file Hn Hfile Hcrf Hmode.
  apply mode_is_not_train in Hmode.
  open_world w. subst.
  unfold encoder_outputs_of, encoder_sequence_length_of, encoded.
  run_method.
  destruct (encoder_encode _ _ _ _) as [[eo st] esl].
  cbn. rewrite Hmode. cbn.
  repeat rewrite <- app_assoc. reflexivity.
Qed.

Lemma build_with_crf :
  forall (w : world) features labels params mode config n file,
    num_labels (self w) = Some n ->
    labels_vocabulary_file (self w) = Some file ->
    crf_decoding (self w) = true ->
    mode <> ModeKeys.TRAIN ->
    let logits := Dense (encoder_outputs_of w features mode config) n in
    let length := encoder_sequence_length_of w features mode config in
    let transition_params :=
      GetVariable (variable_scope w) "transitions" [n; n] in
    let tags_id :=
      Cast (CrfDecodeTags logits transition_params length) tf_int64 in
    let looked_up := IndexToString file n tags_id in
    _build features labels params mode config w =
    (Ok (logits,
         Some (<["labels" := looked_up]> (<["length" := length]> ∅))),
     with_graph
       (graph w ++ [KernelNode (variable_scope w ++ ["generator"])
                      (encoder_outputs_of w features mode config) n;
                    BiasNode (variable_scope w ++ ["generator"]) n;
                    OpNode logits;
                    VariableNode (variable_scope w) "transitions" [n; n];
                    OpNode (CrfDecodeTags logits transition_params length);
                    OpNode tags_id; LookupTable true file n;
                    OpNode looked_up]) w).
Proof.
  intros w features labels params mode config n file Hn Hfile Hcrf Hmode.
  apply mode_is_not_train in Hmode.
  open_world w. subst.
  unfold encoder_outputs_of, encoder_sequence_length_of, encoded.
  run_method.
  destruct (encoder_encode _ _ _ _) as [[eo st] esl].
  cbn. rewrite Hmode. cbn.
  repeat rewrite <- app_assoc. reflexivity.
Qed.

Lemma build_before_initialize :
  forall (w : world) features labels params mode config,
    num_labels (self w) = None ->
    _build features labels params mode config w =
    (Raise (AttributeError "num_labels"), w).
Proof.
  intros w features labels params mode config Hn.
  open_world w. subst. run_method.
  destruct (encoder_encode _ _ _ _) as [[eo st] esl]. reflexivity.
Qed.

End Build.

Section BuildClaims.
Context {the_inputter : Inputter} {the_encoder : Encoder}.

(** C3. In training mode [_build] declares no decoding operation, no
    reverse vocabulary lookup and no transition matrix (no variable
    called transitions), whatever it is called on; any result it returns
    has None for its predictions; and on an initialized tagger it does
    return, with the logits and None, having declared the kernel and the
    bias of the projection and the projection, and nothing else. *)
Theorem build_training_has_no_predictions :
  forall (w : world) (features labels : tensor)
         (params : gmap string string) (mode : string) (config : RunConfig),
    mode = ModeKeys.TRAIN ->
    let outcome := _build features labels params mode config w in
    (exists new : list node,
       graph (snd outcome) = (graph w ++ new)%list /\
       Forall (fun nd => is_decoding nd = false /\
                         is_reverse_lookup nd = false /\
                         is_transitions_creation nd = false) new) /\
    (forall r, fst outcome = Ok r -> snd r = None) /\
    (forall n, num_labels (self w) = Some n ->
       exists logits encoder_outputs,
         fst outcome = Ok (logits, None) /\
         logits = Dense encoder_outputs n /\
         graph (snd outcome) =
         (graph w ++ [KernelNode (variable_scope w ++ ["generator"])
                                 encoder_outputs n;
                      BiasNode (variable_scope w ++ ["generator"]) n;
                      OpNode logits])%list).
Proof.
  intros w features labels params mode config Hmode outcome.
  subst mode outcome.
  destruct (num_labels (self w)) as [n |] eqn:Hn.
  - rewrite (build_in_training w features labels params config n Hn).
    cbn [fst snd]. split; [| split].
    + eexists. split; [reflexivity |].
      repeat constructor.
    + intros r Hr. inversion Hr. reflexivity.
    + intros n' Hn'. inversion Hn'. subst n'.
      do 2 eexists. split; [reflexivity |]. split; reflexivity.
  - rewrite (build_before_initialize w features labels params _ config Hn).
    cbn [fst snd]. split; [| split].
    + exists []. rewrite app_nil_r. split; [reflexivity | constructor].
    + intros r Hr. discriminate Hr.
    + intros n' Hn'. discriminate Hn'.
Qed.

(** C4. Outside training and without CRF decoding, the label ids that
    [_build] predicts are the arg-max along axis 2 of a soft-max over the
    logits it returns: that tensor is declared in the graph and it is what
    the reverse lookup of the prediction's labels is applied to. *)
Theorem build_predicts_argmax_of_softmax :
  forall (w : world) (features labels : tensor)
         (params : gmap string string) (mode : string) (config : RunConfig)
         (n : nat) (file : string),
    num_labels (self w) = Some n ->
    labels_vocabulary_file (self w) = Some file ->
    crf_decoding (self w) = false ->
    mode <> ModeKeys.TRAIN ->
    exists (logits : tensor) (predictions : gmap string tensor) (w' : world),
      _build features labels params mode config w =
      (Ok (logits, Some predictions), w') /\
      let tags_id := ArgMax (Softmax logits) 2 in
      In (OpNode tags_id) (graph w') /\
      predictions !! "labels" = Some (IndexToString file n tags_id).
Proof.
  intros w features labels params mode config n file Hn Hfile Hcrf Hmode.
  rewrite (build_with_softmax w features labels params mode config n file
             Hn Hfile Hcrf Hmode).
  do 3 eexists. split; [reflexivity |].
  split.
  - cbn. apply in_or_app. right. cbn. tauto.
  - apply lookup_insert_eq.
Qed.

End BuildClaims.

Section InitializeAndPrint.
Context {the_inputter : Inputter}.

(** C6. When the metadata has an entry for the labels-vocabulary key,
    [_initialize] records the file it names and sets [num_labels] to the
    number of lines of that file; when the file is absent it fails with
    the error of the line-count utility and sets no label count. *)
Theorem initialize_counts_vocabulary_lines :
  forall (w : world) (metadata : gmap string string) (path : string),
    metadata !! labels_vocabulary_file_key (self w) = Some path ->
    (forall lines : list bytes,
       files w !! path = Some lines ->
       exists w' : world,
         _initialize metadata w = (Ok tt, w') /\
         labels_vocabulary_file (self w') = Some path /\
         num_labels (self w') = Some (length lines)) /\
    (files w !! path = None ->
     fst (_initialize metadata w) = Raise (IOError path) /\
     num_labels (self (snd (_initialize metadata w))) = num_labels (self w)).
Proof.
  intros w metadata path Hkey.
  open_world w. split.
  - intros lines Hfile. run_method. rewrite Hkey. cbn. rewrite Hfile.
    eexists. split; [reflexivity |]. cbn. split; reflexivity.
  - intros Hfile. run_method. rewrite Hkey. cbn. rewrite Hfile.
    cbn. split; reflexivity.
Qed.


End InitializeAndPrint.

(** ** The configuration is framed out of every monadic step *)

Section KeepsConfiguration.
Context {the_inputter : Inputter}.

Lemma keeps_ret {A : Type} (a : A) : keeps_configuration (ret a).
Proof. intros w. reflexivity. Qed.

Lemma keeps_raise {A : Type} (e : exn) :
  keeps_configuration (raise (A := A) e).
Proof. intros w. reflexivity. Qed.

Lemma keeps_gets {A : Type} (f : world -> A) : keeps_configuration (gets f).
Proof. intros w. reflexivity. Qed.

Lemma keeps_bind {A B : Type} (m : M A) (k : A -> M B) :
  keeps_configuration m ->
  (forall a, keeps_configuration (k a)) ->
  keeps_configuration (bind m k).
Proof.
  intros Hm Hk w. unfold bind.
  specialize (Hm w). destruct (m w) as [[a | e] w1]; cbn [snd] in *.
  - rewrite (Hk a w1). exact Hm.
  - exact Hm.
Qed.

Lemma keeps_modify (f : world -> world) :
  (forall w, configuration (self (f w)) = configuration (self w)) ->
  keeps_configuration (modify f).
Proof. intros Hf w. apply Hf. Qed.

Lemma keeps_getattr {A : Type} (field : SequenceTagger -> A) :
  keeps_configuration (getattr field).
Proof. intros w. reflexivity. Qed.

Lemma keeps_getattr_late {A : Type} attr (field : SequenceTagger -> option A) :
  keeps_configuration (getattr_late attr field).
Proof.
  intros w. unfold getattr_late. destruct (field (self w)); reflexivity.
Qed.

Lemma keeps_getitem {V : Type} (d : gmap string V) (key : string) :
  keeps_configuration (getitem d key).
Proof.
  unfold getitem. destruct (d !! key); [apply keeps_ret | apply keeps_raise].
Qed.

Lemma keeps_load_global (id : string) : keeps_configuration (load_global id).
Proof.
  intros w. unfold load_global. destruct (globals w !! id); reflexivity.
Qed.

Lemma keeps_count_lines (filename : string) :
  keeps_configuration (count_lines filename).
Proof.
  intros w. unfold count_lines. destruct (files w !! filename); reflexivity.
Qed.

Lemma keeps_add_node (n : node) : keeps_configuration (add_node n).
Proof. intros w. reflexivity. Qed.

Lemma keeps_op (t : tensor) : keeps_configuration (op t).
Proof. intros w. reflexivity. Qed.

Lemma keeps_tf_variable_scope {A : Type} (scope_name : string) (body : M A) :
  keeps_configuration body ->
  keeps_configuration (tf_variable_scope scope_name body).
Proof.
  intros Hbody w. unfold tf_variable_scope.
  specialize (Hbody (with_variable_scope (variable_scope w ++ [scope_name]) w)).
  destruct (body _) as [r w1]. exact Hbody.
Qed.

Lemma keeps_set_labels_vocabulary_file (v : string) :
  keeps_configuration (set_labels_vocabulary_file v).
Proof. intros w. reflexivity. Qed.

Lemma keeps_set_num_labels (v : nat) :
  keeps_configuration (set_num_labels v).
Proof. intros w. reflexivity. Qed.

Lemma keeps_print (t : text) (file : option positive) :
  keeps_configuration (print t file).
Proof.
  intros w. unfold print.
  destruct (first_unencodable _ _ _); reflexivity.
Qed.

End KeepsConfiguration.

Create HintDb keeps discriminated.
#[export] Hint Resolve keeps_ret keeps_raise keeps_gets keeps_getattr
  keeps_getattr_late keeps_getitem keeps_load_global keeps_count_lines
  keeps_add_node keeps_op keeps_set_labels_vocabulary_file
  keeps_set_num_labels keeps_print : keeps.

(** Walks down a method body: binds, scopes, conditionals and matches. *)
Ltac keeps_step :=
  match goal with
  | |- keeps_configuration (bind _ _) => apply keeps_bind; [| intros ?]
  | |- keeps_configuration (tf_variable_scope _ _) =>
    apply keeps_tf_variable_scope
  | |- keeps_configuration (modify _) =>
    apply keeps_modify; intros ?; reflexivity
  | |- keeps_configuration (if ?b then _ else _) => destruct b
  | |- keeps_configuration (match ?x with _ => _ end) => destruct x
  | |- keeps_configuration (let _ := _ in _) => cbv zeta
  | |- keeps_configuration _ => solve [auto with keeps]
  end.

Ltac keeps_walk := repeat keeps_step.

Section Frame.
Context {the_inputter : Inputter} {the_encoder : Encoder}.

Lemma initialize_keeps metadata : keeps_configuration (_initialize metadata).
Proof. unfold _initialize. keeps_walk. Qed.

Lemma get_labels_builder_keeps labels_file :
  keeps_configuration (_get_labels_builder labels_file).
Proof.
  unfold _get_labels_builder, tf_contrib_lookup_index_table_from_file,
    tf_contrib_data_TextLineDataset.
  keeps_walk.
Qed.

Lemma get_features_builder_keeps features_file :
  keeps_configuration (_get_features_builder features_file).
Proof. unfold _get_features_builder. keeps_walk. Qed.

Lemma build_keeps features labels params mode config :
  keeps_configuration (_build features labels params mode config).
Proof.
  unfold _build, _get_features_length, tf_layers_dense, tf_get_variable,
    tf_contrib_crf_crf_decode, tf_cast, tf_nn_softmax, tf_argmax,
    tf_contrib_lookup_index_to_string_table_from_file, table_lookup.
  keeps_walk.
Qed.

Lemma compute_loss_keeps features labels outputs :
  keeps_configuration (_compute_loss features labels outputs).
Proof.
  unfold _compute_loss, _get_features_length, tf_cast,
    tf_contrib_crf_crf_log_likelihood, tf_get_variable, tf_neg,
    tf_reduce_mean, masked_sequence_loss.
  keeps_walk.
Qed.

Lemma print_prediction_keeps prediction params stream :
  keeps_configuration (print_prediction prediction params stream).
Proof. unfold print_prediction. keeps_walk. Qed.

Lemma run_keeps_configuration :
  forall (o : operation) (w : world),
    configuration (self (run o w)) = configuration (self w).
Proof.
  intros o w. destruct o; cbn [run].
  - apply initialize_keeps.
  - reflexivity.
  - reflexivity.
  - reflexivity.
  - apply get_features_builder_keeps.
  - apply get_labels_builder_keeps.
  - apply build_keeps.
  - apply compute_loss_keeps.
  - apply print_prediction_keeps.
Qed.

(** C8. The inputter, the encoder, the labels-vocabulary key and the
    CRF flag of a tagger are the same after any sequence of operations
    (initialization, building, loss computation, printing and the rest),
    whether the operations return or raise. *)
Theorem configuration_is_never_reassigned :
  forall (os : list operation) (w : world),
    inputter (self (run_all os w)) = inputter (self w) /\
    encoder (self (run_all os w)) = encoder (self w) /\
    labels_vocabulary_file_key (self (run_all os w)) =
      labels_vocabulary_file_key (self w) /\
    crf_decoding (self (run_all os w)) = crf_decoding (self w).
Proof.
  intros os. induction os as [| o os IH]; intros w.
  - cbn. repeat split.
  - cbn [run_all fold_left]. fold (run_all os (run o w)).
    destruct (IH (run o w)) as (Hi & He & Hk & Hc).
    pose proof (run_keeps_configuration o w) as Hrun.
    unfold configuration in Hrun. inversion Hrun as [[Hi' He' Hk' Hc']].
    rewrite Hi, He, Hk, Hc. repeat split; assumption.
Qed.

End Frame.

Section LabelSpace.
Context {the_inputter : Inputter} {the_encoder : Encoder}.

Lemma added_of_growth (o : operation) (w : world) (new : list node) :
  graph (run o w) = (graph w ++ new)%list -> added o w = new.
Proof.
  intros Hgrow. unfold added. rewrite Hgrow. apply drop_app_length.
Qed.





End LabelSpace.

Section LabelSpaceClaims.
Context {the_inputter : Inputter} {the_encoder : Encoder}.


(** C9. [_get_labels_length] returns None for every labels input and
    changes nothing; the length that [_build] passes to the encoder and
    the length in every loss [_compute_loss] returns is the one the
    inputter derives from the features, and the labels have no part in
    what [_build] does. *)
Theorem labels_length_is_none :
  forall (w : world) (labels : tensor),
    _get_labels_length labels w = (Ok None, w) /\
    (forall features,
       _get_features_length features w =
       (Ok (inputter_get_length (inputter_object w) features), w)) /\
    (forall features labels' params mode config,
       _build features labels params mode config w =
       _build features labels' params mode config w) /\
    (forall features params mode config r,
       fst (_build features labels params mode config w) = Ok r ->
       exists sc inputs n,
         fst r =
         Dense (fst (fst (encoder_encode sc inputs
                            (inputter_get_length (inputter_object w) features)
                            mode))) n) /\
    (forall features outputs loss,
       fst (_compute_loss features labels outputs w) = Ok loss ->
       let length := inputter_get_length (inputter_object w) features in
       (exists num_tags : nat,
          last_dimension outputs = Some num_tags /\
          loss = ReduceMean
                   (Neg (CrfLogLikelihood outputs (Cast labels tf_int32)
                           length
                           (GetVariable (variable_scope w) "transitions"
                                        [num_tags; num_tags])))) \/
       exists t, loss = MaskedSequenceLoss t labels length).
Proof.
  intros w labels. split; [reflexivity |]. split; [reflexivity |].
  split; [reflexivity |]. split.
  - intros features params mode config r Hr.
    destruct (num_labels (self w)) as [n |] eqn:Hn.
    + exists (variable_scope w ++ ["encoder"])%list.
      exists (inputter_transform_data (inputter_object w)
                (variable_scope w ++ ["encoder"])%list features mode
                (model_dir config)).
      exists n.
      open_world w. subst. revert Hr. run_method.
      destruct (encoder_encode _ _ _ _) as [[eo st] esl]. cbn.
      destruct (negb _); [destruct crf; destruct file |]; cbn;
        intros Hr; inversion Hr; reflexivity.
    + rewrite (build_before_initialize w features labels params mode config
                 Hn) in Hr.
      discriminate Hr.
  - intros features outputs loss Hloss length. subst length.
    destruct (crf_decoding (self w)) eqn:Hcrf.
    + destruct (last_dimension outputs) as [num_tags |] eqn:Htags.
      * rewrite (compute_loss_with_crf w features labels outputs num_tags
                   Hcrf Htags) in Hloss.
        inversion Hloss. left. exists num_tags. split; reflexivity.
      * rewrite (compute_loss_with_crf_without_tags w features labels
                   outputs Hcrf Htags) in Hloss.
        discriminate Hloss.
    + right. open_world w. subst. revert Hloss. run_method.
      destruct (globals0 !! "logits") as [[] |]; cbn; intros Hloss;
        try discriminate Hloss.
      inversion Hloss. eexists. reflexivity.
Qed.

End LabelSpaceClaims.

Section PredictionLength.
Context {the_inputter : Inputter} {the_encoder : Encoder}.

Lemma build_prediction_length :
  forall (w : world) features labels params mode config n file,
    num_labels (self w) = Some n ->
    labels_vocabulary_file (self w) = Some file ->
    mode <> ModeKeys.TRAIN ->
    exists (logits : tensor) (predictions : gmap string tensor) (w' : world),
      _build features labels params mode config w =
      (Ok (logits, Some predictions), w') /\
      predictions !! "length" =
      Some (encoder_sequence_length_of w features mode config).
Proof.
  intros w features labels params mode config n file Hn Hfile Hmode.
  destruct (crf_decoding (self w)) eqn:Hcrf.
  - rewrite (build_with_crf w features labels params mode config n file
               Hn Hfile Hcrf Hmode).
    do 3 eexists. split; [reflexivity |].
    rewrite lookup_insert_ne by discriminate. apply lookup_insert_eq.
  - rewrite (build_with_softmax w features labels params mode config n file
               Hn Hfile Hcrf Hmode).
    do 3 eexists. split; [reflexivity |].
    rewrite lookup_insert_ne by discriminate. apply lookup_insert_eq.
Qed.

End PredictionLength.

(** C10. Outside training, the length of the prediction [_build] returns
    is the sequence length the encoder returned, for every inputter and
    encoder; and it need not be the length the inputter derives from the
    features: with the pyramidal encoder and features of length 4 the
    prediction's length evaluates to 2. *)
Theorem prediction_length_is_encoder_length :
  (forall (I : Inputter) (E : Encoder) (w : world)
          (features labels : tensor) (params : gmap string string)
          (mode : string) (config : RunConfig) (n : nat) (file : string),
     num_labels (self w) = Some n ->
     labels_vocabulary_file (self w) = Some file ->
     mode <> ModeKeys.TRAIN ->
     exists (logits : tensor) (predictions : gmap string tensor) (w' : world),
       _build features labels params mode config w =
       (Ok (logits, Some predictions), w') /\
       predictions !! "length" =
       Some (snd (encoder_encode
                    (variable_scope w ++ ["encoder"])%list
                    (inputter_transform_data (inputter_object w)
                       (variable_scope w ++ ["encoder"])%list features mode
                       (model_dir config))
                    (inputter_get_length (inputter_object w) features)
                    mode))) /\
  (exists (logits length : tensor) (predictions : gmap string tensor),
     fst (_build (the_inputter := word_inputter)
                 (the_encoder := pyramidal_encoder)
                 sample_features sample_labels ∅ ModeKeys.PREDICT
                 sample_config (ready_world false)) =
     Ok (logits, Some predictions) /\
     predictions !! "length" = Some length /\
     int_value sample_feed length = Some 2%Z /\
     int_value sample_feed
       (inputter_get_length (Inputter := word_inputter)
          (inputter_object (ready_world false)) sample_features) =
     Some 4%Z).
Proof.
  split.
  - intros I E w features labels params mode config n file Hn Hfile Hmode.
    exact (build_prediction_length w features labels params mode config
             n file Hn Hfile Hmode).
  - do 3 eexists. split; [vm_compute; reflexivity |].
    split; [vm_compute; reflexivity |].
    split; vm_compute; reflexivity.
Qed.

(** * The claims on the concrete setting *)

#[local] Existing Instance word_inputter.
#[local] Existing Instance pyramidal_encoder.

Lemma compute_loss_reads_unbound_logits_witness :
  crf_decoding (self (ready_world false)) = false /\
  globals (ready_world false) !! "logits" = None /\
  _compute_loss sample_features sample_labels sample_outputs
                (ready_world false) =
  (Raise (NameError "logits"), ready_world false).
Proof.
  split; [reflexivity |]. split; [vm_compute; reflexivity |].
  apply (compute_loss_reads_unbound_logits (ready_world false)
           sample_features sample_labels sample_outputs).
  - reflexivity.
  - vm_compute. reflexivity.
Defined.


Lemma build_training_has_no_predictions_witness :
  ModeKeys.TRAIN = ModeKeys.TRAIN /\
  num_labels (self (ready_world true)) = Some 3 /\
  exists logits encoder_outputs : tensor,
    fst (_build sample_features sample_labels ∅ ModeKeys.TRAIN sample_config
                (ready_world true)) = Ok (logits, None) /\
    logits = Dense encoder_outputs 3 /\
    graph (snd (_build sample_features sample_labels ∅ ModeKeys.TRAIN
                       sample_config (ready_world true))) =
    (graph (ready_world true)
       ++ [KernelNode (variable_scope (ready_world true) ++ ["generator"])
                      encoder_outputs 3;
           BiasNode (variable_scope (ready_world true) ++ ["generator"]) 3;
           OpNode logits])%list.
Proof.
  split; [reflexivity |]. split; [reflexivity |].
  apply (build_training_has_no_predictions (ready_world true)
           sample_features sample_labels ∅ ModeKeys.TRAIN sample_config
           eq_refl) with (n := 3).
  reflexivity.
Defined.

Lemma build_predicts_argmax_of_softmax_witness :
  num_labels (self (ready_world false)) = Some 3 /\
  labels_vocabulary_file (self (ready_world false)) = Some "labels.txt" /\
  crf_decoding (self (ready_world false)) = false /\
  ModeKeys.PREDICT <> ModeKeys.TRAIN /\
  exists (logits : tensor) (predictions : gmap string tensor) (w' : world),
    _build sample_features sample_labels ∅ ModeKeys.PREDICT sample_config
           (ready_world false) = (Ok (logits, Some predictions), w') /\
    In (OpNode (ArgMax (Softmax logits) 2)) (graph w') /\
    predictions !! "labels" =
    Some (IndexToString "labels.txt" 3 (ArgMax (Softmax logits) 2)).
Proof.
  split; [reflexivity |]. split; [reflexivity |]. split; [reflexivity |].
  split; [discriminate |].
  apply (build_predicts_argmax_of_softmax (ready_world false)
           sample_features sample_labels ∅ ModeKeys.PREDICT sample_config
           3 "labels.txt").
  - reflexivity.
  - reflexivity.
  - reflexivity.
  - discriminate.
Defined.



Lemma initialize_counts_vocabulary_lines_witness :
  sample_metadata !! labels_vocabulary_file_key (self (fresh_world true)) =
    Some "labels.txt" /\
  files (fresh_world true) !! "labels.txt" = Some label_lines /\
  exists w' : world,
    _initialize sample_metadata (fresh_world true) = (Ok tt, w') /\
    labels_vocabulary_file (self w') = Some "labels.txt" /\
    num_labels (self w') = Some (length label_lines).
Proof.
  split; [vm_compute; reflexivity |]. split; [vm_compute; reflexivity |].
  apply (initialize_counts_vocabulary_lines (fresh_world true)
           sample_metadata "labels.txt").
  - vm_compute. reflexivity.
  - vm_compute. reflexivity.
Defined.


Lemma labels_length_is_none_witness :
  fst (_compute_loss sample_features sample_labels sample_logits
                     (ready_world true)) =
    Ok (ReduceMean (Neg (CrfLogLikelihood sample_logits
                           (Cast sample_labels tf_int32)
                           (Op "length" [sample_features])
                           (GetVariable [] "transitions" [3; 3])))) /\
  _get_labels_length sample_labels (ready_world true) =
    (Ok None, ready_world true).
Proof.
  split; [vm_compute; reflexivity |].
  apply (labels_length_is_none (ready_world true) sample_labels).
Defined.

Lemma prediction_length_is_encoder_length_witness :
  num_labels (self (ready_world true)) = Some 3 /\
  labels_vocabulary_file (self (ready_world true)) = Some "labels.txt" /\
  ModeKeys.EVAL <> ModeKeys.TRAIN /\
  exists (logits : tensor) (predictions : gmap string tensor) (w' : world),
    _build sample_features sample_labels ∅ ModeKeys.EVAL sample_config
           (ready_world true) = (Ok (logits, Some predictions), w') /\
    predictions !! "length" =
    Some (Op "floordiv" [Op "length" [sample_features]; Const 2]).
Proof.
  split; [reflexivity |]. split; [reflexivity |]. split; [discriminate |].
  apply (proj1 prediction_length_is_encoder_length word_inputter
           pyramidal_encoder (ready_world true) sample_features
           sample_labels ∅ ModeKeys.EVAL sample_config 3 "labels.txt").
  - reflexivity.
  - reflexivity.
  - discriminate.
Defined.

(** * Further properties of the methods *)

(** Runs a method on an opened world and splits on every test it makes. *)
Ltac step_cases :=
  repeat (run_method; cbn [fst snd];
          match goal with
          | |- context [match ?x with _ => _ end] =>
            lazymatch x with
            | context [match _ with _ => _ end] => fail
            | _ => destruct x eqn:?
            end
          end).

Section Frames.
Context {the_inputter : Inputter} {the_encoder : Encoder}.

Lemma run_restores_variable_scope :
  forall (o : operation) (w : world),
    variable_scope (run o w) = variable_scope w.
Proof.
  intros o w. open_world w.
  destruct o; cbn [run]; step_cases; reflexivity.
Qed.

(** X1. No sequence of operations leaves the variable scope changed: the
    encoder and generator scopes that [_build] enters are left again,
    also when it raises inside one of them. *)
Theorem operations_restore_variable_scope :
  forall (os : list operation) (w : world),
    variable_scope (run_all os w) = variable_scope w.
Proof.
  intros os. induction os as [| o os IH]; intros w.
  - reflexivity.
  - cbn [run_all fold_left]. fold (run_all os (run o w)).
    rewrite (IH (run o w)). apply run_restores_variable_scope.
Qed.

(** X2. Only [_initialize] assigns attributes of the tagger: every other
    operation leaves all attributes of [self] (the label count and the
    vocabulary file included) as they were, in any state and whether it
    returns or raises. *)
Theorem only_initialize_changes_tagger :
  forall (o : operation) (w : world),
    is_initialize o = false ->
    self (run o w) = self w.
Proof.
  intros o w Hop. open_world w.
  destruct o; try discriminate Hop; cbn [run]; step_cases; reflexivity.
Qed.

(** X3. Only [print_prediction] writes to a stream, and it writes to one
    stream only: the one it is given, or the standard output. *)
Theorem only_print_prediction_writes :
  forall (o : operation) (w : world),
    (is_print_prediction o = false -> streams (run o w) = streams w) /\
    (forall prediction params stream (s : positive),
       o = PrintPrediction prediction params stream ->
       s <> default sys_stdout stream ->
       streams (run o w) !! s = streams w !! s).
Proof.
  intros o w. split.
  - intros Hop. open_world w.
    destruct o; try discriminate Hop; cbn [run]; step_cases; reflexivity.
  - intros prediction params stream s Ho Hs. subst o. open_world w.
    cbn [run]. step_cases; try reflexivity.
    cbn. apply lookup_insert_ne. congruence.
Qed.

End Frames.

Section Printing.
Context {the_inputter : Inputter} {the_encoder : Encoder}.

Lemma slice_to_normalized {A : Type} (stop : Z) (l : list A) :
  slice_to (normalized_stop stop (length l)) l = slice_to stop l /\
  (0 <= normalized_stop stop (length l) <= Z.of_nat (length l))%Z.
Proof.
  unfold normalized_stop, slice_to.
  destruct (Z.ltb_spec stop 0) as [Hneg | Hpos].
  - split; [| lia].
    replace (0 <=? stop)%Z with false by (symmetry; apply Z.leb_gt; lia).
    replace (0 <=? Z.max 0 (Z.of_nat (length l) + stop))%Z with true
      by (symmetry; apply Z.leb_le; lia).
    f_equal. lia.
  - split; [| lia].
    replace (0 <=? stop)%Z with true by (symmetry; apply Z.leb_le; lia).
    replace (0 <=? Z.min stop (Z.of_nat (length l)))%Z with true
      by (symmetry; apply Z.leb_le; lia).
    destruct (Z.le_ge_cases stop (Z.of_nat (length l))) as [Hin | Hout].
    + rewrite Z.min_l by lia. reflexivity.
    + rewrite Z.min_r by lia. rewrite Nat2Z.id.
      rewrite take_ge by lia. rewrite take_ge by lia. reflexivity.
Qed.

(** X5. A prediction without a labels entry makes [print_prediction]
    raise KeyError for labels, one with labels but without a length entry
    KeyError for length; in both cases nothing is written. *)
Theorem print_prediction_missing_entry :
  forall (w : world) (prediction : gmap string npvalue)
         (params : option (gmap string string)) (stream : option positive),
    (prediction !! "labels" = None ->
     print_prediction prediction params stream w =
     (Raise (KeyError "labels"), w)) /\
    (is_Some (prediction !! "labels") ->
     prediction !! "length" = None ->
     print_prediction prediction params stream w =
     (Raise (KeyError "length"), w)).
Proof.
  intros w prediction params stream. split.
  - intros Hlabels. open_world w. run_method. rewrite Hlabels. reflexivity.
  - intros [v Hlabels] Hlength. open_world w. run_method.
    rewrite Hlabels, Hlength. reflexivity.
Qed.

(** X6. The length of a prediction is used as the stop of a Python
    slice: a length beyond the labels array prints all the labels, a
    negative length -k drops the last k labels, and no length makes
    [print_prediction] fail for being out of range.  Printing with length
    [n] is printing with the normalized length, which lies between 0 and
    the number of labels. *)
Theorem print_prediction_length_is_a_slice_stop :
  forall (w : world) (prediction : gmap string npvalue)
         (params : option (gmap string string)) (stream : option positive)
         (items : list bytes) (n : Z),
    prediction !! "labels" = Some (NpBytesArray items) ->
    prediction !! "length" = Some (NpInt n) ->
    let m := normalized_stop n (length items) in
    (0 <= m <= Z.of_nat (length items))%Z /\
    (Z.of_nat (length items) <= n -> m = Z.of_nat (length items))%Z /\
    (n < 0 -> m = Z.max 0 (Z.of_nat (length items) + n))%Z /\
    print_prediction prediction params stream w =
    print_prediction (<["length" := NpInt m]> prediction) params stream w.
Proof.
  intros w prediction params stream items n Hlabels Hlength m.
  destruct (slice_to_normalized n items) as [Hslice Hrange].
  split; [exact Hrange |]. split; [| split].
  - intros Hbig. subst m. unfold normalized_stop.
    destruct (Z.ltb_spec n 0); lia.
  - intros Hneg. subst m. unfold normalized_stop.
    destruct (Z.ltb_spec n 0); lia.
  - open_world w. run_method.
    rewrite lookup_insert_ne by discriminate.
    rewrite lookup_insert_eq. rewrite Hlabels, Hlength.
    fold m in Hslice. rewrite Hslice. reflexivity.
Qed.

(** X7. Two predictions printed one after the other to the same stream,
    whose encoding can take both lines, leave their two lines there in
    that order, after what the stream held. *)
Theorem print_prediction_appends_in_order :
  forall (w : world) (p1 p2 : gmap string npvalue)
         (params1 params2 : option (gmap string string))
         (stream : option positive)
         (items1 items2 : list bytes) (n1 n2 : Z) (line1 line2 : text),
    p1 !! "labels" = Some (NpBytesArray items1) ->
    p1 !! "length" = Some (NpInt n1) ->
    p2 !! "labels" = Some (NpBytesArray items2) ->
    p2 !! "length" = Some (NpInt n2) ->
    utf8_decode (bytes_join [" "%byte] (slice_to n1 items1)) = inr line1 ->
    utf8_decode (bytes_join [" "%byte] (slice_to n2 items2)) = inr line2 ->
    let target := default sys_stdout stream in
    first_unencodable (stream_encoding w target) 0 line1 = None ->
    first_unencodable (stream_encoding w target) 0 line2 = None ->
    streams (run_all [PrintPrediction p1 params1 stream;
                      PrintPrediction p2 params2 stream] w) !! target =
    Some (default [] (streams w !! target)
            ++ line1 ++ [10%N] ++ line2 ++ [10%N])%list.
Proof.
  intros w p1 p2 params1 params2 stream items1 items2 n1 n2 line1 line2
         Hl1 Hn1 Hl2 Hn2 Hd1 Hd2 target He1 He2.
  subst target. open_world w. cbn [run_all fold_left run]. run_method.
  rewrite Hl1, Hn1, Hd1. run_method. rewrite He1. cbn [snd]. run_method.
  rewrite Hl2, Hn2, Hd2. run_method. rewrite He2. cbn [snd].
  run_method.
  rewrite lookup_insert_eq. cbn. rewrite lookup_insert_eq. cbn.
  repeat rewrite <- app_assoc. reflexivity.
Qed.

End Printing.

Section Decoding.
Context {the_inputter : Inputter} {the_encoder : Encoder}.

Lemma utf8_decode_from_ascii :
  forall (bs : bytes) (pos : nat),
    Forall (fun b => is_ascii b = true) bs ->
    utf8_decode_from pos bs = inr (map Byte.to_N bs).
Proof.
  induction bs as [| b0 rest IH]; intros pos Hascii.
  - reflexivity.
  - inversion Hascii as [| ? ? Hb0 Hrest]; subst.
    cbn [utf8_decode_from map]. cbv zeta.
    unfold is_ascii in Hb0. rewrite Hb0.
    rewrite (IH (1 + pos) Hrest). reflexivity.
Qed.

Lemma bytes_join_ascii :
  forall (sep : bytes) (parts : list bytes),
    Forall (fun b => is_ascii b = true) sep ->
    Forall (fun p => Forall (fun b => is_ascii b = true) p) parts ->
    Forall (fun b => is_ascii b = true) (bytes_join sep parts).
Proof.
  intros sep parts Hsep. induction parts as [| p ps IH]; intros Hparts.
  - constructor.
  - inversion Hparts as [| ? ? Hp Hps]; subst.
    destruct ps as [| q qs].
    + exact Hp.
    + change (bytes_join sep (p :: q :: qs))
        with (p ++ sep ++ bytes_join sep (q :: qs))%list.
      apply Forall_app. split; [exact Hp |].
      apply Forall_app. split; [exact Hsep | exact (IH Hps)].
Qed.

Lemma slice_to_Forall {A : Type} (P : A -> Prop) (stop : Z) (l : list A) :
  Forall P l -> Forall P (slice_to stop l).
Proof.
  intros Hl. unfold slice_to.
  destruct (0 <=? stop)%Z; apply Forall_take; exact Hl.
Qed.

Lemma ascii_is_encodable (e : encoding) (cp : N) :
  (cp <= 127)%N -> encodable e cp = true.
Proof.
  intros Hcp. destruct e; cbn.
  - apply N.leb_le. exact Hcp.
  - apply N.leb_le. lia.
  - unfold unicode_scalar. apply andb_true_iff.
    split; [apply N.leb_le; lia |].
    apply negb_true_iff. apply andb_false_iff. left. apply N.leb_gt. lia.
Qed.

Lemma first_unencodable_ascii :
  forall (e : encoding) (bs : bytes) (pos : nat),
    Forall (fun b => is_ascii b = true) bs ->
    first_unencodable e pos (map Byte.to_N bs) = None.
Proof.
  intros e bs. induction bs as [| b0 rest IH]; intros pos Hascii.
  - reflexivity.
  - inversion Hascii as [| ? ? Hb0 Hrest]; subst.
    cbn [map first_unencodable].
    rewrite ascii_is_encodable
      by (apply N.leb_le; exact Hb0).
    apply IH. exact Hrest.
Qed.

(** X8. When every byte of every label is ASCII, [print_prediction]
    cannot fail to decode: it returns, and the line it writes is the
    sliced labels joined by single spaces, byte for byte, and a newline. *)
Theorem print_prediction_ascii_labels :
  forall (w : world) (prediction : gmap string npvalue)
         (params : option (gmap string string)) (stream : option positive)
         (items : list bytes) (n : Z),
    prediction !! "labels" = Some (NpBytesArray items) ->
    prediction !! "length" = Some (NpInt n) ->
    Forall (fun label => Forall (fun b => is_ascii b = true) label) items ->
    let target := default sys_stdout stream in
    let line := map Byte.to_N (bytes_join [" "%byte] (slice_to n items)) in
    print_prediction prediction params stream w =
    (Ok tt,
     with_streams
       (<[target := (default [] (streams w !! target) ++ line ++ [10%N])%list]>
          (streams w)) w).
Proof.
  intros w prediction params stream items n Hlabels Hlength Hascii
         target line.
  subst target line.
  assert (Hjoined : Forall (fun b => is_ascii b = true)
                           (bytes_join [" "%byte] (slice_to n items))).
  { apply bytes_join_ascii.
    - repeat constructor.
    - apply slice_to_Forall. exact Hascii. }
  pose proof (utf8_decode_from_ascii _ 0 Hjoined) as Hdecode.
  fold (utf8_decode (bytes_join [" "%byte] (slice_to n items))) in Hdecode.
  open_world w. run_method. rewrite Hlabels, Hlength, Hdecode.
  run_method. rewrite (first_unencodable_ascii _ _ 0 Hjoined). reflexivity.
Qed.

Lemma continuation_bound (b : byte) (c : N) :
  continuation b = Some c -> (c <= 63)%N.
Proof.
  unfold continuation.
  destruct (_ && _) eqn:Hrange; [| discriminate].
  apply andb_true_iff in Hrange. destruct Hrange as [Hlo Hhi].
  apply N.leb_le in Hlo. apply N.leb_le in Hhi.
  intros Hc. inversion Hc. lia.
Qed.

Lemma unicode_scalar_below_surrogates (cp : N) :
  (cp < 55296)%N -> unicode_scalar cp = true.
Proof.
  intros Hcp. unfold unicode_scalar.
  apply andb_true_iff. split; [apply N.leb_le; lia |].
  apply negb_true_iff. apply andb_false_iff. left. apply N.leb_gt. lia.
Qed.

Lemma cons_code_point_scalar (cp : N) (r : nat + text) (t : text) :
  unicode_scalar cp = true ->
  (forall t', r = inr t' -> Forall (fun c => unicode_scalar c = true) t') ->
  cons_code_point cp r = inr t ->
  Forall (fun c => unicode_scalar c = true) t.
Proof.
  intros Hcp Hrest Hcons. destruct r as [p | t']; cbn in Hcons.
  - discriminate Hcons.
  - inversion Hcons. subst. constructor; [exact Hcp | auto].
Qed.

Lemma utf8_decode_from_scalar :
  forall (k : nat) (bs : bytes) (pos : nat) (t : text),
    length bs <= k ->
    utf8_decode_from pos bs = inr t ->
    Forall (fun c => unicode_scalar c = true) t.
Proof.
  induction k as [| k IH]; intros bs pos t Hlen Hdec.
  - destruct bs; [| cbn in Hlen; lia].
    inversion Hdec. constructor.
  - destruct bs as [| b0 rest]; [inversion Hdec; constructor |].
    cbn [utf8_decode_from] in Hdec. cbv zeta in Hdec.
    cbn [length] in Hlen.
    remember (Byte.to_N b0) as n0 eqn:Hn0. clear Hn0.
    destruct (N.leb_spec n0 127) as [Hascii | _].
    { eapply cons_code_point_scalar; [| | exact Hdec].
      - apply unicode_scalar_below_surrogates. lia.
      - intros t' Ht'. eapply (IH rest); [lia | exact Ht']. }
    destruct ((194 <=? n0)%N && (n0 <=? 223)%N) eqn:Htwo.
    { apply andb_true_iff in Htwo. destruct Htwo as [Hlo Hhi].
      apply N.leb_le in Hlo. apply N.leb_le in Hhi.
      destruct rest as [| b1 rest']; [discriminate Hdec |].
      destruct (continuation b1) as [c1 |] eqn:Hc1; [| discriminate Hdec].
      apply continuation_bound in Hc1.
      eapply cons_code_point_scalar; [| | exact Hdec].
      - apply unicode_scalar_below_surrogates. lia.
      - intros t' Ht'. eapply (IH rest'); [cbn [length] in Hlen; lia
                                           | exact Ht']. }
    destruct ((224 <=? n0)%N && (n0 <=? 239)%N) eqn:Hthree.
    { apply andb_true_iff in Hthree. destruct Hthree as [Hlo Hhi].
      apply N.leb_le in Hlo. apply N.leb_le in Hhi.
      destruct rest as [| b1 [| b2 rest']]; try discriminate Hdec.
      destruct (continuation b1) as [c1 |] eqn:Hc1; [| discriminate Hdec].
      destruct (continuation b2) as [c2 |] eqn:Hc2; [| discriminate Hdec].
      apply continuation_bound in Hc1. apply continuation_bound in Hc2.
      destruct (_ && _) eqn:Hvalid in Hdec; [| discriminate Hdec].
      apply andb_true_iff in Hvalid. destruct Hvalid as [_ Hsurrogate].
      eapply cons_code_point_scalar; [| | exact Hdec].
      - unfold unicode_scalar. apply andb_true_iff.
        split; [apply N.leb_le; lia | exact Hsurrogate].
      - intros t' Ht'. eapply (IH rest'); [cbn [length] in Hlen; lia
                                           | exact Ht']. }
    destruct ((240 <=? n0)%N && (n0 <=? 244)%N) eqn:Hfour;
      [| discriminate Hdec].
    destruct rest as [| b1 [| b2 [| b3 rest']]]; try discriminate Hdec.
    destruct (continuation b1) as [c1 |]; [| discriminate Hdec].
    destruct (continuation b2) as [c2 |]; [| discriminate Hdec].
    destruct (continuation b3) as [c3 |]; [| discriminate Hdec].
    destruct (_ && _) eqn:Hvalid in Hdec; [| discriminate Hdec].
    apply andb_true_iff in Hvalid. destruct Hvalid as [Hlow Hhigh].
    apply N.leb_le in Hlow.
    eapply cons_code_point_scalar; [| | exact Hdec].
    + unfold unicode_scalar. apply andb_true_iff.
      split; [exact Hhigh |].
      apply negb_true_iff. apply andb_false_iff. right.
      apply N.leb_gt. lia.
    + intros t' Ht'. eapply (IH rest'); [cbn [length] in Hlen; lia
                                         | exact Ht'].
Qed.

(** X9. Whenever [print_prediction] returns, all it has done is append
    one line and a newline to its target stream, and the line consists of
    Unicode scalar values only: no surrogate and nothing above U+10FFFF
    is ever written. *)
Theorem print_prediction_writes_scalar_values :
  forall (w w' : world) (prediction : gmap string npvalue)
         (params : option (gmap string string)) (stream : option positive),
    print_prediction prediction params stream w = (Ok tt, w') ->
    let target := default sys_stdout stream in
    exists line : text,
      Forall (fun c => unicode_scalar c = true) line /\
      w' = with_streams
             (<[target := (default [] (streams w !! target)
                             ++ line ++ [10%N])%list]> (streams w)) w.
Proof.
  intros w w' prediction params stream Hprint target. subst target.
  open_world w. revert Hprint. run_method.
  destruct (prediction !! "labels") as [[z | items] |]; cbn;
    try (intros Hprint; discriminate Hprint);
    destruct (prediction !! "length") as [[n | items'] |]; cbn;
    try (intros Hprint; discriminate Hprint).
  destruct (utf8_decode _) as [position | line] eqn:Hdecode;
    [intros Hprint; discriminate Hprint |].
  destruct (first_unencodable _ _ _);
    intros Hprint; [discriminate Hprint |].
  exists line. split.
  - eapply utf8_decode_from_scalar; [reflexivity | exact Hdecode].
  - inversion Hprint. reflexivity.
Qed.

End Decoding.

Section Initialization.
Context {the_inputter : Inputter} {the_encoder : Encoder}.

(** X10. When the metadata has no entry for the labels-vocabulary key,
    [_initialize] raises KeyError for that key; by then the inputter has
    been initialized, and the tagger's own attributes are untouched. *)
Theorem initialize_missing_key :
  forall (w : world) (metadata : gmap string string),
    metadata !! labels_vocabulary_file_key (self w) = None ->
    _initialize metadata w =
    (Raise (KeyError (labels_vocabulary_file_key (self w))),
     with_inputter_object
       (inputter_initialize metadata (inputter_object w)) w).
Proof.
  intros w metadata Hkey. open_world w. run_method. rewrite Hkey.
  reflexivity.
Qed.

(** X11. When the vocabulary file is absent, the failed [_initialize]
    leaves the tagger half initialized: the inputter is initialized and
    [labels_vocabulary_file] is assigned, but [num_labels] is as before;
    on a tagger that had no label count, [_build] and
    [_get_labels_builder] then still raise AttributeError for
    [num_labels]. *)
Theorem initialize_missing_file_is_partial :
  forall (w : world) (metadata : gmap string string) (path : string),
    metadata !! labels_vocabulary_file_key (self w) = Some path ->
    files w !! path = None ->
    let w' := run (Initialize metadata) w in
    labels_vocabulary_file (self w') = Some path /\
    num_labels (self w') = num_labels (self w) /\
    inputter_object w' = inputter_initialize metadata (inputter_object w) /\
    (num_labels (self w) = None ->
     (forall features labels params mode config,
        fst (_build features labels params mode config w') =
        Raise (AttributeError "num_labels")) /\
     (forall labels_file,
        fst (_get_labels_builder labels_file w') =
        Raise (AttributeError "num_labels"))).
Proof.
  intros w metadata path Hkey Hfile w'. subst w'.
  open_world w. cbn [run]. run_method. rewrite Hkey. cbn.
  rewrite Hfile. cbn.
  split; [reflexivity |]. split; [reflexivity |]. split; [reflexivity |].
  intros Hnone. subst. split.
  - intros features labels params mode config. run_method.
    destruct (encoder_encode _ _ _ _) as [[eo st] esl]. reflexivity.
  - intros labels_file. reflexivity.
Qed.

(** X12. After a successful [_initialize], whatever [_build] returns,
    in any mode, has logits that are a dense projection with as many
    units (and tags) as the vocabulary file has lines, and has
    predictions exactly when the mode is not the training mode. *)
Theorem build_after_initialize_has_one_unit_per_line :
  forall (w : world) (metadata : gmap string string) (path : string)
         (lines : list bytes) (features labels : tensor)
         (params : gmap string string) (mode : string) (config : RunConfig)
         (logits : tensor) (predictions : option (gmap string tensor))
         (w' : world),
    metadata !! labels_vocabulary_file_key (self w) = Some path ->
    files w !! path = Some lines ->
    _build features labels params mode config
           (run (Initialize metadata) w) =
      (Ok (logits, predictions), w') ->
    (exists encoder_outputs : tensor,
       logits = Dense encoder_outputs (length lines)) /\
    last_dimension logits = Some (length lines) /\
    (predictions = None <-> mode = ModeKeys.TRAIN).
Proof.
  intros w metadata path lines features labels params mode config
         logits predictions w' Hkey Hfile Hbuild.
  assert (Hready :
            num_labels (self (run (Initialize metadata) w)) =
              Some (length lines) /\
            labels_vocabulary_file (self (run (Initialize metadata) w)) =
              Some path).
  { open_world w. cbn [run]. run_method. rewrite Hkey. cbn.
    rewrite Hfile. cbn. split; reflexivity. }
  destruct Hready as [Hn Hpath].
  destruct (String.eqb_spec mode ModeKeys.TRAIN) as [Hmode | Hmode].
  - subst mode.
    rewrite (build_in_training _ features labels params config _ Hn)
      in Hbuild.
    inversion Hbuild. subst.
    split; [eexists; reflexivity |]. split; [reflexivity |].
    split; reflexivity.
  - destruct (crf_decoding (self (run (Initialize metadata) w))) eqn:Hcrf.
    + rewrite (build_with_crf _ features labels params mode config _ _
                 Hn Hpath Hcrf Hmode) in Hbuild.
      inversion Hbuild. subst.
      split; [eexists; reflexivity |]. split; [reflexivity |].
      split; [intros H; discriminate H | intros H; contradiction].
    + rewrite (build_with_softmax _ features labels params mode config _ _
                 Hn Hpath Hcrf Hmode) in Hbuild.
      inversion Hbuild. subst.
      split; [eexists; reflexivity |]. split; [reflexivity |].
      split; [intros H; discriminate H | intros H; contradiction].
Qed.

(** X13. [_initialize] is not guarded against being run again: after two
    initializations the label count and the vocabulary file are those of
    the second metadata, whatever the first one did, and the inputter has
    been initialized with both, in order. *)
Theorem initialize_again_overwrites :
  forall (w : world) (metadata1 metadata2 : gmap string string)
         (path : string) (lines : list bytes),
    metadata2 !! labels_vocabulary_file_key (self w) = Some path ->
    files w !! path = Some lines ->
    let w' := run_all [Initialize metadata1; Initialize metadata2] w in
    num_labels (self w') = Some (length lines) /\
    labels_vocabulary_file (self w') = Some path /\
    inputter_object w' =
    inputter_initialize metadata2
      (inputter_initialize metadata1 (inputter_object w)).
Proof.
  intros w metadata1 metadata2 path lines Hkey Hfile w'. subst w'.
  open_world w. cbn [run_all fold_left run]. run_method.
  destruct (metadata1 !! key) as [path1 |]; cbn.
  - destruct (files0 !! path1) as [lines1 |]; cbn; run_method;
      rewrite Hkey; cbn; rewrite Hfile; cbn; repeat split; reflexivity.
  - run_method. rewrite Hkey. cbn. rewrite Hfile. cbn.
    repeat split; reflexivity.
Qed.

(** X14. A tagger as its constructor leaves it cannot build anything:
    [_build] raises AttributeError for [num_labels], and
    [_get_labels_builder] raises AttributeError for
    [labels_vocabulary_file] before it has done anything. *)
Theorem constructed_tagger_needs_initialize :
  forall (w : world) (inputter_ref encoder_ref : positive)
         (key : string) (crf : bool) (tagger_name : string),
    self w = __init__ inputter_ref encoder_ref key crf tagger_name ->
    (forall features labels params mode config,
       fst (_build features labels params mode config w) =
       Raise (AttributeError "num_labels")) /\
    (forall labels_file,
       _get_labels_builder labels_file w =
       (Raise (AttributeError "labels_vocabulary_file"), w)).
Proof.
  intros w inputter_ref encoder_ref key crf tagger_name Hself. split.
  - intros features labels params mode config.
    rewrite build_before_initialize; [reflexivity |].
    rewrite Hself. reflexivity.
  - intros labels_file. destruct w as [t io g sc fs gl st se].
    cbn in Hself. subst t. reflexivity.
Qed.

End Initialization.

Section Decoders.
Context {the_inputter : Inputter} {the_encoder : Encoder}.

(** X15. Outside training and with CRF decoding, the label ids that
    [_build] predicts are the tags of the CRF decoder, cast to int64, run
    on the returned logits with the encoder's sequence length and with a
    variable called transitions of shape [n; n]; that variable is created
    in the scope [_build] was called in, outside the encoder and
    generator scopes, and no soft-max or arg-max is declared. *)
Theorem build_predicts_crf_decoding :
  forall (w : world) (features labels : tensor)
         (params : gmap string string) (mode : string) (config : RunConfig)
         (n : nat) (file : string),
    num_labels (self w) = Some n ->
    labels_vocabulary_file (self w) = Some file ->
    crf_decoding (self w) = true ->
    mode <> ModeKeys.TRAIN ->
    exists (logits : tensor) (predictions : gmap string tensor) (w' : world),
      _build features labels params mode config w =
      (Ok (logits, Some predictions), w') /\
      let transition_params :=
        GetVariable (variable_scope w) "transitions" [n; n] in
      let tags :=
        CrfDecodeTags logits transition_params
          (encoder_sequence_length_of w features mode config) in
      predictions !! "labels" =
        Some (IndexToString file n (Cast tags tf_int64)) /\
      In (VariableNode (variable_scope w) "transitions" [n; n])
         (added (Build features labels params mode config) w) /\
      Forall (fun nd => match nd with
                        | OpNode (Softmax _) | OpNode (ArgMax _ _) => False
                        | _ => True
                        end)
             (added (Build features labels params mode config) w).
Proof.
  intros w features labels params mode config n file Hn Hfile Hcrf Hmode.
  pose proof (build_with_crf w features labels params mode config n file
                Hn Hfile Hcrf Hmode) as Hbuild.
  cbv zeta in Hbuild.
  erewrite (added_of_growth _ w);
    [| cbn [run]; rewrite Hbuild; reflexivity].
  rewrite Hbuild. do 3 eexists. split; [reflexivity |].
  cbv zeta. split; [apply lookup_insert_eq |].
  split; [cbn; tauto |]. repeat constructor.
Qed.

(** X16. The predictions of [_build] hold exactly two entries, length
    and labels, with either decoder. *)
Theorem predictions_have_length_and_labels :
  forall (w : world) (features labels : tensor)
         (params : gmap string string) (mode : string) (config : RunConfig)
         (logits : tensor) (predictions : gmap string tensor) (w' : world),
    _build features labels params mode config w =
      (Ok (logits, Some predictions), w') ->
    forall key : string,
      is_Some (predictions !! key) <-> key = "length" \/ key = "labels".
Proof.
  intros w features labels params mode config logits predictions w' Hbuild.
  assert (Hshape : exists looked_up length_,
             predictions =
             <["labels" := looked_up]> (<["length" := length_]> ∅)).
  { open_world w. revert Hbuild. run_method.
    destruct (encoder_encode _ _ _ _) as [[eo st] esl]. cbn.
    destruct nl as [n |]; cbn; [| intros H; discriminate H].
    destruct (negb _); cbn; [| intros H; discriminate H].
    destruct crf; cbn; destruct file as [f |]; cbn;
      intros H; try discriminate H; inversion H; eauto. }
  destruct Hshape as (looked_up & length_ & ->).
  intros key. split.
  - intros [v Hv].
    destruct (decide (key = "labels")) as [-> | Hne1]; [tauto |].
    rewrite lookup_insert_ne in Hv by congruence.
    destruct (decide (key = "length")) as [-> | Hne2]; [tauto |].
    rewrite lookup_insert_ne in Hv by congruence.
    rewrite lookup_empty in Hv. discriminate Hv.
  - intros [-> | ->].
    + rewrite lookup_insert_ne by discriminate.
      rewrite lookup_insert_eq. eauto.
    + rewrite lookup_insert_eq. eauto.
Qed.

End Decoders.

Section Builders.
Context {the_inputter : Inputter} {the_encoder : Encoder}.

(** X17. The labels builder captures its table when it is built: on an
    initialized tagger [_get_labels_builder] returns the text-line
    dataset of the labels file, a processing function that in any later
    state maps a line to the lookup of its split values in the forward
    table of the vocabulary file with [vocab_size = num_labels] as they
    were at building time, and padded shapes that are always [None]
    alone. *)
Theorem labels_builder_captures_table :
  forall (w : world) (n : nat) (file labels_file : string),
    num_labels (self w) = Some n ->
    labels_vocabulary_file (self w) = Some file ->
    exists (process_fn : tensor -> M tensor)
           (padded_shapes_fn : unit -> M (list (option nat))) (w' : world),
      _get_labels_builder labels_file w =
      (Ok (TextLineDataset labels_file, process_fn, padded_shapes_fn), w') /\
      (forall (later : world) (x : tensor),
         fst (process_fn x later) =
         Ok (StringToIndex file n (StringSplitValues x))) /\
      (forall later : world, padded_shapes_fn tt later = (Ok [None], later)).
Proof.
  intros w n file labels_file Hn Hfile.
  open_world w. subst. run_method.
  do 3 eexists. split; [reflexivity |].
  split; intros later; reflexivity.
Qed.

End Builders.

(** * The further properties on the concrete setting *)

Lemma only_initialize_changes_tagger_witness :
  is_initialize (Build sample_features sample_labels ∅ ModeKeys.EVAL
                       sample_config) = false /\
  self (run (Build sample_features sample_labels ∅ ModeKeys.EVAL
                   sample_config) (ready_world true)) =
  self (ready_world true).
Proof.
  split; [reflexivity |].
  apply (only_initialize_changes_tagger
           (Build sample_features sample_labels ∅ ModeKeys.EVAL
                  sample_config) (ready_world true)).
  reflexivity.
Defined.

Lemma only_print_prediction_writes_witness :
  is_print_prediction (ComputeLoss sample_features sample_labels
                                   sample_outputs) = false /\
  streams (run (ComputeLoss sample_features sample_labels sample_outputs)
               (ready_world true)) = streams (ready_world true).
Proof.
  split; [reflexivity |].
  apply (only_print_prediction_writes
           (ComputeLoss sample_features sample_labels sample_outputs)
           (ready_world true)).
  reflexivity.
Defined.

Lemma print_prediction_missing_entry_witness :
  (∅ : gmap string npvalue) !! "labels" = None /\
  print_prediction ∅ None None (ready_world false) =
  (Raise (KeyError "labels"), ready_world false).
Proof.
  split; [reflexivity |].
  apply (print_prediction_missing_entry (ready_world false) ∅ None None).
  reflexivity.
Defined.

Lemma print_prediction_length_is_a_slice_stop_witness :
  <["length" := NpInt (-1)]> sample_prediction !! "labels" =
    Some (NpBytesArray label_lines) /\
  <["length" := NpInt (-1)]> sample_prediction !! "length" =
    Some (NpInt (-1)) /\
  normalized_stop (-1) (length label_lines) = 2%Z /\
  print_prediction (<["length" := NpInt (-1)]> sample_prediction) None None
                   (ready_world false) =
  print_prediction
    (<["length" := NpInt (normalized_stop (-1) (length label_lines))]>
       (<["length" := NpInt (-1)]> sample_prediction))
    None None (ready_world false).
Proof.
  split; [vm_compute; reflexivity |]. split; [vm_compute; reflexivity |].
  split; [reflexivity |].
  apply (print_prediction_length_is_a_slice_stop (ready_world false)
           (<["length" := NpInt (-1)]> sample_prediction) None None
           label_lines (-1)).
  - vm_compute. reflexivity.
  - vm_compute. reflexivity.
Defined.

Lemma print_prediction_appends_in_order_witness :
  sample_prediction !! "labels" = Some (NpBytesArray label_lines) /\
  sample_prediction !! "length" = Some (NpInt 2) /\
  utf8_decode (bytes_join [" "%byte] (slice_to 2 label_lines)) =
    inr [66; 45; 80; 69; 82; 32; 73; 45; 80; 69; 82]%N /\
  first_unencodable (stream_encoding (ready_world false) sys_stdout) 0
                    [66; 45; 80; 69; 82; 32; 73; 45; 80; 69; 82]%N = None /\
  streams (run_all [PrintPrediction sample_prediction None None;
                    PrintPrediction sample_prediction None None]
                   (ready_world false)) !! sys_stdout =
  Some [66; 45; 80; 69; 82; 32; 73; 45; 80; 69; 82; 10;
        66; 45; 80; 69; 82; 32; 73; 45; 80; 69; 82; 10]%N.
Proof.
  split; [vm_compute; reflexivity |]. split; [vm_compute; reflexivity |].
  split; [vm_compute; reflexivity |]. split; [reflexivity |].
  apply (print_prediction_appends_in_order (ready_world false)
           sample_prediction sample_prediction None None None
           label_lines label_lines 2 2
           [66; 45; 80; 69; 82; 32; 73; 45; 80; 69; 82]%N
           [66; 45; 80; 69; 82; 32; 73; 45; 80; 69; 82]%N);
    vm_compute; reflexivity.
Defined.

Lemma print_prediction_ascii_labels_witness :
  sample_prediction !! "labels" = Some (NpBytesArray label_lines) /\
  sample_prediction !! "length" = Some (NpInt 2) /\
  Forall (fun label => Forall (fun b => is_ascii b = true) label)
         label_lines /\
  fst (print_prediction sample_prediction None None (ready_world false)) =
  Ok tt.
Proof.
  assert (Hascii : Forall (fun label =>
                             Forall (fun b => is_ascii b = true) label)
                          label_lines)
    by (repeat constructor).
  split; [vm_compute; reflexivity |]. split; [vm_compute; reflexivity |].
  split; [exact Hascii |].
  rewrite (print_prediction_ascii_labels (ready_world false)
             sample_prediction None None label_lines 2);
    [reflexivity | vm_compute; reflexivity | vm_compute; reflexivity
     | exact Hascii].
Defined.

Lemma print_prediction_writes_scalar_values_witness :
  print_prediction sample_prediction None None (ready_world false) =
    (Ok tt, snd (print_prediction sample_prediction None None
                                  (ready_world false))) /\
  exists line : text,
    Forall (fun c => unicode_scalar c = true) line /\
    snd (print_prediction sample_prediction None None (ready_world false)) =
    with_streams
      (<[sys_stdout := (default [] (streams (ready_world false) !! sys_stdout)
                          ++ line ++ [10%N])%list]>
         (streams (ready_world false))) (ready_world false).
Proof.
  split; [vm_compute; reflexivity |].
  apply (print_prediction_writes_scalar_values (ready_world false)
           (snd (print_prediction sample_prediction None None
                                  (ready_world false)))
           sample_prediction None None).
  vm_compute. reflexivity.
Defined.

Lemma initialize_missing_key_witness :
  (∅ : gmap string string)
    !! labels_vocabulary_file_key (self (fresh_world true)) = None /\
  fst (_initialize ∅ (fresh_world true)) =
  Raise (KeyError "labels_vocabulary").
Proof.
  split; [reflexivity |].
  rewrite (initialize_missing_key (fresh_world true) ∅); reflexivity.
Defined.

Lemma initialize_missing_file_is_partial_witness :
  (<["labels_vocabulary" := "missing.txt"]> ∅ : gmap string string)
    !! labels_vocabulary_file_key (self (fresh_world true)) =
    Some "missing.txt" /\
  files (fresh_world true) !! "missing.txt" = None /\
  labels_vocabulary_file
    (self (run (Initialize (<["labels_vocabulary" := "missing.txt"]> ∅))
               (fresh_world true))) = Some "missing.txt".
Proof.
  split; [vm_compute; reflexivity |]. split; [vm_compute; reflexivity |].
  apply (initialize_missing_file_is_partial (fresh_world true)
           (<["labels_vocabulary" := "missing.txt"]> ∅) "missing.txt").
  - vm_compute. reflexivity.
  - vm_compute. reflexivity.
Defined.

Lemma build_after_initialize_has_one_unit_per_line_witness :
  sample_metadata !! labels_vocabulary_file_key (self (fresh_world false)) =
    Some "labels.txt" /\
  files (fresh_world false) !! "labels.txt" = Some label_lines /\
  match _build sample_features sample_labels ∅ ModeKeys.PREDICT
               sample_config
               (run (Initialize sample_metadata) (fresh_world false)) with
  | (Ok (logits, predictions), _) =>
    (exists encoder_outputs : tensor,
       logits = Dense encoder_outputs (length label_lines)) /\
    last_dimension logits = Some (length label_lines) /\
    (predictions = None <-> ModeKeys.PREDICT = ModeKeys.TRAIN)
  | _ => False
  end.
Proof.
  split; [vm_compute; reflexivity |]. split; [vm_compute; reflexivity |].
  destruct (_build sample_features sample_labels ∅ ModeKeys.PREDICT
                   sample_config
                   (run (Initialize sample_metadata) (fresh_world false)))
    as [[[logits predictions] | e] w'] eqn:Hbuild.
  - apply (build_after_initialize_has_one_unit_per_line (fresh_world false)
             sample_metadata "labels.txt" label_lines sample_features
             sample_labels ∅ ModeKeys.PREDICT sample_config logits
             predictions w').
    + vm_compute. reflexivity.
    + vm_compute. reflexivity.
    + exact Hbuild.
  - vm_compute in Hbuild. discriminate Hbuild.
Defined.

Lemma initialize_again_overwrites_witness :
  sample_metadata !! labels_vocabulary_file_key (self (fresh_world true)) =
    Some "labels.txt" /\
  files (fresh_world true) !! "labels.txt" = Some label_lines /\
  num_labels (self (run_all [Initialize ∅; Initialize sample_metadata]
                            (fresh_world true))) =
  Some (length label_lines).
Proof.
  split; [vm_compute; reflexivity |]. split; [vm_compute; reflexivity |].
  apply (initialize_again_overwrites (fresh_world true) ∅ sample_metadata
           "labels.txt" label_lines).
  - vm_compute. reflexivity.
  - vm_compute. reflexivity.
Defined.

Lemma constructed_tagger_needs_initialize_witness :
  self (fresh_world true) =
    __init__ 2%positive 3%positive "labels_vocabulary" true "seqtagger" /\
  fst (_build sample_features sample_labels ∅ ModeKeys.TRAIN sample_config
              (fresh_world true)) =
  Raise (AttributeError "num_labels").
Proof.
  split; [reflexivity |].
  apply (constructed_tagger_needs_initialize (fresh_world true)
           2%positive 3%positive "labels_vocabulary" true "seqtagger").
  reflexivity.
Defined.

Lemma build_predicts_crf_decoding_witness :
  num_labels (self (ready_world true)) = Some 3 /\
  labels_vocabulary_file (self (ready_world true)) = Some "labels.txt" /\
  crf_decoding (self (ready_world true)) = true /\
  ModeKeys.PREDICT <> ModeKeys.TRAIN /\
  In (VariableNode [] "transitions" [3; 3])
     (added (Build sample_features sample_labels ∅ ModeKeys.PREDICT
                   sample_config) (ready_world true)).
Proof.
  split; [reflexivity |]. split; [reflexivity |]. split; [reflexivity |].
  split; [discriminate |].
  destruct (build_predicts_crf_decoding (ready_world true) sample_features
              sample_labels ∅ ModeKeys.PREDICT sample_config 3 "labels.txt"
              eq_refl eq_refl eq_refl)
    as (logits & predictions & w' & _ & _ & Hvariable & _).
  - discriminate.
  - exact Hvariable.
Defined.

Lemma predictions_have_length_and_labels_witness :
  match _build sample_features sample_labels ∅ ModeKeys.PREDICT
               sample_config (ready_world false) with
  | (Ok (_, Some predictions), _) =>
    is_Some (predictions !! "scores") <->
    "scores" = "length" \/ "scores" = "labels"
  | _ => False
  end.
Proof.
  destruct (_build sample_features sample_labels ∅ ModeKeys.PREDICT
                   sample_config (ready_world false))
    as [[[logits [predictions |]] | e] w'] eqn:Hbuild.
  - apply (predictions_have_length_and_labels (ready_world false)
             sample_features sample_labels ∅ ModeKeys.PREDICT sample_config
             logits predictions w' Hbuild).
  - vm_compute in Hbuild. discriminate Hbuild.
  - vm_compute in Hbuild. discriminate Hbuild.
Defined.

Lemma labels_builder_captures_table_witness :
  num_labels (self (ready_world true)) = Some 3 /\
  labels_vocabulary_file (self (ready_world true)) = Some "labels.txt" /\
  exists (process_fn : tensor -> M tensor)
         (padded_shapes_fn : unit -> M (list (option nat))) (w' : world),
    _get_labels_builder "train.tags" (ready_world true) =
    (Ok (TextLineDataset "train.tags", process_fn, padded_shapes_fn), w') /\
    (forall (later : world) (x : tensor),
       fst (process_fn x later) =
       Ok (StringToIndex "labels.txt" 3 (StringSplitValues x))) /\
    (forall later : world, padded_shapes_fn tt later = (Ok [None], later)).
Proof.
  split; [reflexivity |]. split; [reflexivity |].
  apply (labels_builder_captures_table (ready_world true) 3 "labels.txt"
           "train.tags"); reflexivity.
Defined.
